(** * Business-insights dashboard (src/app.py): data cleaning and report handlers

    The dashboard is a Streamlit script over a pandas DataFrame.  The
    embedding below follows the script statement by statement.

    Modelling conventions.
    - A DataFrame is the list of its rows, in index order; a column read
      [df['X']] is [map X df].
    - Every cell of the file may be missing (pandas NaN / NaT): a cell is an
      [option].
    - [Quantity] is an integer ([Z]); a sum of the int64 column wraps around
      at 2^63 ([sum_int64]).  [UnitPrice] and [Revenue] are rationals ([Q]),
      the values the decimal text of the file denotes: the rounding of
      binary floating point is outside the model, and the properties below
      that involve a sum of revenues hold whatever the sum rounds to.
    - Text is a [string] of Latin-1 code points (the file is read with
      encoding ISO-8859-1), one [ascii] per character.
    - The libraries the script calls and whose code is not part of the
      repository ([pd.to_datetime], [apriori], [fpgrowth],
      [association_rules]) are Section variables. *)

From Stdlib Require Import ZArith QArith List String Ascii DecimalString Bool Lia
  Permutation Sorted Qround.
Import ListNotations.

Local Open Scope string_scope.
Local Open Scope Z_scope.

(** ** Missing values *)

Definition notna {A : Type} (x : option A) : bool :=
  match x with Some _ => true | None => false end.

(** [astype(str)] on an object column: a missing cell prints as "nan". *)
Definition astype_str (x : option string) : string :=
  match x with Some s => s | None => "nan" end.

(** [str.startswith(p)]. *)
Definition startswith (p s : string) : bool := String.prefix p s.

(** Comparison of a numeric cell with zero; a comparison with NaN is False. *)
Definition Z_gt0 (x : option Z) : bool :=
  match x with Some q => 0 <? q | None => false end.

Definition Z_le0 (x : option Z) : bool :=
  match x with Some q => q <=? 0 | None => false end.

Definition Q_le0 (x : option Q) : bool :=
  match x with Some p => Qle_bool p 0 | None => false end.

(** Product of an integer column and a float column; NaN propagates. *)
Definition mul_cells (q : option Z) (p : option Q) : option Q :=
  match q, p with
  | Some q, Some p => Some (inject_Z q * p)%Q
  | _, _ => None
  end.

(** ** Timestamps *)

Record Timestamp : Type := mkTimestamp {
  year : Z; month : Z; day : Z; hour : Z; minute : Z; second : Z
}.

(** ** Transaction records *)

(** A row of the file as [pd.read_csv] returns it. *)
Module Raw.
Record Row : Type := mkRow {
  InvoiceNo : option string;
  StockCode : option string;
  Description : option string;
  Quantity : option Z;
  InvoiceDate : option string;
  UnitPrice : option Q;
  CustomerID : option Z;
  Country : option string
}.
End Raw.

(** A row of the frame [load_data] returns: the date is parsed and the
    column [Revenue] is added. *)
Record Row : Type := mkRow {
  InvoiceNo : option string;
  StockCode : option string;
  Description : option string;
  Quantity : option Z;
  InvoiceDate : option Timestamp;
  UnitPrice : option Q;
  CustomerID : option Z;
  Country : option string;
  Revenue : option Q
}.

Definition DataFrame : Type := list Row.

(** ** The loader *)

Section Loader.

(** [pd.to_datetime] on one cell; [None] is NaT. *)
Variable to_datetime : option string -> option Timestamp.

(** [df.dropna(subset=["CustomerID"])] *)
Definition dropna_CustomerID (df : list Raw.Row) : list Raw.Row :=
  filter (fun r => notna (Raw.CustomerID r)) df.

(** [df[~df['InvoiceNo'].astype(str).str.startswith('C')]] *)
Definition drop_cancellations (df : list Raw.Row) : list Raw.Row :=
  filter (fun r => negb (startswith "C" (astype_str (Raw.InvoiceNo r)))) df.

(** [df[df['Quantity'] > 0]] *)
Definition keep_positive_quantity (df : list Raw.Row) : list Raw.Row :=
  filter (fun r => Z_gt0 (Raw.Quantity r)) df.

(** The two column assignments that end [load_data]. *)
Definition with_date_and_revenue (r : Raw.Row) : Row :=
  {| InvoiceNo := Raw.InvoiceNo r;
     StockCode := Raw.StockCode r;
     Description := Raw.Description r;
     Quantity := Raw.Quantity r;
     InvoiceDate := to_datetime (Raw.InvoiceDate r);
     UnitPrice := Raw.UnitPrice r;
     CustomerID := Raw.CustomerID r;
     Country := Raw.Country r;
     Revenue := mul_cells (Raw.Quantity r) (Raw.UnitPrice r) |}.

Definition load_data (csv : list Raw.Row) : DataFrame :=
  map with_date_and_revenue
      (keep_positive_quantity (drop_cancellations (dropna_CustomerID csv))).

End Loader.

(** The cleaning invariant of one record. *)
Definition cleaned (r : Row) : Prop :=
  CustomerID r <> None
  /\ (exists q, Quantity r = Some q /\ 0 < q)
  /\ startswith "C" (astype_str (InvoiceNo r)) = false.

(** ** Series, sorting and group-by *)

Section Sorting.

Context {A : Type} (leb : A -> A -> bool).

Fixpoint insert_sorted (x : A) (l : list A) : list A :=
  match l with
  | [] => [x]
  | y :: l' => if leb x y then x :: l else y :: insert_sorted x l'
  end.

(** A stable sort: equal elements keep their order. *)
Definition sort (l : list A) : list A := fold_right insert_sorted [] l.

End Sorting.

(** The non-missing cells of a column. *)
Definition dropna {A : Type} (col : list (option A)) : list A :=
  flat_map (fun x => match x with Some a => [a] | None => [] end) col.

Definition Qsum (l : list Q) : Q := fold_right Qplus 0%Q l.

(** [Series.sum()] of a float column: missing cells are skipped. *)
Definition sum_Q (col : list (option Q)) : Q := Qsum (dropna col).

(** The sum of the whole numbers of a column, missing cells skipped. *)
Definition sum_Z (col : list (option Z)) : Z :=
  fold_right Z.add 0 (dropna col).

(** An int64 result: a value outside [-2^63, 2^63) wraps around. *)
Definition wrap_int64 (z : Z) : Z := (z + 2 ^ 63) mod 2 ^ 64 - 2 ^ 63.

(** [Series.sum()] of an int64 column, such as [Quantity] in a file where
    every record has a quantity: the additions wrap around, so the result
    is the sum reduced to the int64 range.  (A file with an empty quantity
    field gives a column of floats, whose sums round and do not wrap; as
    long as the sum stays below 2^63 the sign is the same.) *)
Definition sum_int64 (col : list (option Z)) : Z := wrap_int64 (sum_Z col).

(** [Series.count()]: the number of non-missing cells. *)
Definition count {A : Type} (col : list (option A)) : nat :=
  List.length (dropna col).

(** [Series.mean()]: NaN on a column without values. *)
Definition mean_Q (col : list (option Q)) : option Q :=
  match count col with
  | O => None
  | n => Some (sum_Q col / inject_Z (Z.of_nat n))%Q
  end.

(** A Series indexed by [K]: its (label, value) pairs in order. *)
Definition Series (K V : Type) : Type := list (K * V).

Definition series_sum {K : Type} (s : Series K Q) : Q := Qsum (map snd s).

(** [sort_values(ascending=False)], then [head(n)] is [firstn n]. *)
Definition sort_values_desc {K V : Type} (leb : V -> V -> bool)
    (s : Series K V) : Series K V :=
  sort (fun a b => leb (snd b) (snd a)) s.

(** [Series.shift(periods)]: the values move down by [periods] places and
    the first [periods] places are missing. *)
Definition shift {A : Type} (periods : nat) (v : list A) : list (option A) :=
  firstn (List.length v) (repeat None periods ++ map Some v).

Section GroupBy.

Context {R K : Type}.
Variable K_dec : forall x y : K, {x = y} + {x <> y}.
Variable K_leb : K -> K -> bool.

(** [Series.nunique()]: the number of distinct non-missing cells. *)
Definition nunique (col : list (option K)) : nat :=
  List.length (nodup K_dec (dropna col)).

Definition has_key (k : K) (x : option K) : bool :=
  match x with
  | Some k' => if K_dec k k' then true else false
  | None => false
  end.

(** The group labels of [df.groupby(key)]: the distinct non-missing keys,
    sorted.  Rows whose key is missing belong to no group. *)
Definition group_keys (key : R -> option K) (df : list R) : list K :=
  sort K_leb (nodup K_dec (dropna (map key df))).

Definition get_group (key : R -> option K) (k : K) (df : list R) : list R :=
  filter (fun r => has_key k (key r)) df.

(** [df.groupby(key)[...].agg(f)]. *)
Definition groupby_agg {V : Type} (key : R -> option K) (f : list R -> V)
    (df : list R) : Series K V :=
  map (fun k => (k, f (get_group key k df))) (group_keys key df).

(** Label lookup in a Series. *)
Fixpoint series_get {V : Type} (k : K) (s : Series K V) : option V :=
  match s with
  | [] => None
  | (k', v) :: s' => if K_dec k k' then Some v else series_get k s'
  end.

End GroupBy.

Definition pair_dec (x y : string * string) : {x = y} + {x <> y}.
Proof. decide equality; apply string_dec. Defined.

(** Lexicographic order of a two-level index. *)
Definition pair_leb (x y : string * string) : bool :=
  match String.compare (fst x) (fst y) with
  | Lt => true
  | Eq => String.leb (snd x) (snd y)
  | Gt => false
  end.

(** ** Calendar *)

(** Days from 1970-01-01 to the civil date y-m-d (proleptic Gregorian). *)
Definition days_from_civil (y m d : Z) : Z :=
  let y' := if m <=? 2 then y - 1 else y in
  let era := y' / 400 in
  let yoe := y' - era * 400 in
  let mp := if 2 <? m then m - 3 else m + 9 in
  let doy := (153 * mp + 2) / 5 + d - 1 in
  let doe := yoe * 365 + yoe / 4 - yoe / 100 + doy in
  era * 146097 + doe - 719468.

Definition to_seconds (t : Timestamp) : Z :=
  days_from_civil (year t) (month t) (day t) * 86400
  + hour t * 3600 + minute t * 60 + second t.

(** [dt.day_name()] *)
Definition day_name (t : Timestamp) : string :=
  nth (Z.to_nat ((days_from_civil (year t) (month t) (day t) + 4) mod 7))
      ["Sunday"; "Monday"; "Tuesday"; "Wednesday"; "Thursday"; "Friday";
       "Saturday"] "".

(** [dt.to_period("M")] *)
Definition to_period_M (t : Timestamp) : Z * Z := (year t, month t).

(** [Series.max()] of a datetime column: NaT cells are skipped, and the
    maximum of no value is NaT. *)
Definition max_time (col : list (option Timestamp)) : option Timestamp :=
  fold_right (fun t acc =>
                match acc with
                | Some m => if to_seconds m <? to_seconds t then Some t else Some m
                | None => Some t
                end) None (dropna col).

(** [t + timedelta(days=n)], as seconds since the epoch. *)
Definition add_days (t : Timestamp) (n : Z) : Z := to_seconds t + n * 86400.

(** [(a - b).days] for two instants in seconds. *)
Definition timedelta_days (a b : Z) : Z := (a - b) / 86400.

(** ** Text *)

(** [str.upper()] of one Latin-1 character.  'ß' becomes "SS".  The upper
    cases of 'µ' and 'ÿ' lie outside Latin-1 and outside the ASCII letters;
    they are left as they are. *)
Definition upper_char (c : ascii) : string :=
  let n := nat_of_ascii c in
  if ((97 <=? n) && (n <=? 122))%nat then String (ascii_of_nat (n - 32)) ""
  else if (n =? 223)%nat then "SS"
  else if ((224 <=? n) && (n <=? 254) && negb (n =? 247))%nat
       then String (ascii_of_nat (n - 32)) ""
  else String c "".

Fixpoint upper (s : string) : string :=
  match s with
  | EmptyString => EmptyString
  | String c s' => upper_char c ++ upper s'
  end.

(** [k in s] *)
Fixpoint contains (k s : string) : bool :=
  String.prefix k s
  || match s with
     | EmptyString => false
     | String _ s' => contains k s'
     end.

(** ** Navigation *)

Inductive Choice : Type :=
| SalesPerformance
| TimeSeriesAnalysis
| CustomerSegmentation
| BasketAnalysis
| CountryLevelAnalysis
| PriceQuantityInsights
| FraudDetection
| CustomerRetention.

Definition sections : list Choice :=
  [SalesPerformance; TimeSeriesAnalysis; CustomerSegmentation; BasketAnalysis;
   CountryLevelAnalysis; PriceQuantityInsights; FraudDetection;
   CustomerRetention].

(** ** Sales performance: the KPI cards *)

(** [df['Revenue'].sum()] *)
Definition total_revenue (df : DataFrame) : Q := sum_Q (map Revenue df).

(** [df['InvoiceNo'].nunique()] *)
Definition total_orders (df : DataFrame) : nat :=
  nunique string_dec (map InvoiceNo df).

(** [df['CustomerID'].nunique()] *)
Definition total_customers (df : DataFrame) : nat :=
  nunique Z.eq_dec (map CustomerID df).

Definition keywords : list string :=
  ["HOLDER"; "SET"; "CUP"; "BOTTLE"; "LANTERN"; "HEART"].

(** [get_category], on the text [str(desc)]. *)
Definition get_category (desc : string) : string :=
  match find (fun k => contains k (upper desc)) keywords with
  | Some k => k
  | None => "OTHER"
  end.

(** [df.groupby("Description")["Quantity"].sum()] *)
Definition quantity_by_product (df : DataFrame) : Series string Z :=
  groupby_agg string_dec String.leb Description
              (fun g => sum_int64 (map Quantity g)) df.

(** [df.groupby("Description")["Revenue"].sum()] *)
Definition revenue_by_product (df : DataFrame) : Series string Q :=
  groupby_agg string_dec String.leb Description (fun g => sum_Q (map Revenue g)) df.

(** [df.groupby("CustomerID")["Revenue"].sum()] *)
Definition revenue_by_customer (df : DataFrame) : Series Z Q :=
  groupby_agg Z.eq_dec Z.leb CustomerID (fun g => sum_Q (map Revenue g)) df.

(** The three "Top 10" charts: [.sort_values(ascending=False).head(10)]. *)
Definition top_products_qty (df : DataFrame) : Series string Z :=
  firstn 10 (sort_values_desc Z.leb (quantity_by_product df)).

Definition top_products_rev (df : DataFrame) : Series string Q :=
  firstn 10 (sort_values_desc Qle_bool (revenue_by_product df)).

Definition top_customers (df : DataFrame) : Series Z Q :=
  firstn 10 (sort_values_desc Qle_bool (revenue_by_customer df)).

(** [df.groupby("Category")["Revenue"].sum().sort_values(ascending=False)],
    with [df['Category'] = df['Description'].apply(get_category)]. *)
Definition category_revenue (df : DataFrame) : Series string Q :=
  sort_values_desc Qle_bool
    (groupby_agg string_dec String.leb
                 (fun r => Some (get_category (astype_str (Description r))))
                 (fun g => sum_Q (map Revenue g)) df).

Definition weekdays : list string :=
  ["Sunday"; "Monday"; "Tuesday"; "Wednesday"; "Thursday"; "Friday"; "Saturday"].

(** [df['DayOfWeek'] = df['InvoiceDate'].dt.day_name()] and
    [df['Hour'] = df['InvoiceDate'].dt.hour], read row by row. *)
Definition DayOfWeek (r : Row) : option string := option_map day_name (InvoiceDate r).

Definition Hour (r : Row) : option Z := option_map hour (InvoiceDate r).

(** [df.groupby("DayOfWeek")["Revenue"].sum()] *)
Definition sales_by_day (df : DataFrame) : Series string Q :=
  groupby_agg string_dec String.leb DayOfWeek (fun g => sum_Q (map Revenue g)) df.

(** [df.groupby("Hour")["Revenue"].sum()] *)
Definition sales_by_hour (df : DataFrame) : Series Z Q :=
  groupby_agg Z.eq_dec Z.leb Hour (fun g => sum_Q (map Revenue g)) df.

(** ** Country-level analysis *)

(** [df.groupby("Country")["Revenue"].sum().sort_values(ascending=False)] *)
Definition country_sales (df : DataFrame) : Series string Q :=
  sort_values_desc Qle_bool
    (groupby_agg string_dec String.leb Country
                 (fun g => sum_Q (map Revenue g)) df).

(** [df.groupby("Country")["Revenue"].mean()] *)
Definition avg_transaction_size (df : DataFrame) : Series string (option Q) :=
  groupby_agg string_dec String.leb Country (fun g => mean_Q (map Revenue g)) df.

(** ** Price and quantity insights *)

(** [Series.quantile(q)] with linear interpolation between the two
    neighbouring order statistics; missing cells are skipped and the
    quantile of no value is NaN. *)
Definition quantile (q : Q) (col : list (option Q)) : option Q :=
  let v := sort Qle_bool (dropna col) in
  match v with
  | [] => None
  | x0 :: _ =>
      let pos := (q * inject_Z (Z.of_nat (List.length v - 1)))%Q in
      let lo := Z.to_nat (Qfloor pos) in
      let hi := Nat.min (lo + 1) (List.length v - 1) in
      let a := nth lo v x0 in
      let b := nth hi v x0 in
      Some (a + (b - a) * (pos - inject_Z (Qfloor pos)))%Q
  end.

(** [column > threshold]; a comparison with NaN is False. *)
Definition Q_gt (x threshold : option Q) : bool :=
  match x, threshold with
  | Some a, Some t => negb (Qle_bool a t)
  | _, _ => false
  end.

(** The column [Quantity] as floats. *)
Definition quantity_value (r : Row) : option Q := option_map inject_Z (Quantity r).

(** [df[(df["Quantity"] > df["Quantity"].quantile(0.99))
       | (df["Revenue"] > df["Revenue"].quantile(0.99))]] *)
Definition bulk_orders (df : DataFrame) : DataFrame :=
  let q_quantity := quantile 0.99 (map quantity_value df) in
  let q_revenue := quantile 0.99 (map Revenue df) in
  filter (fun r => Q_gt (quantity_value r) q_quantity || Q_gt (Revenue r) q_revenue) df.

(** ** Fraud detection *)

(** [df[(df["Quantity"] <= 0) | (df["UnitPrice"] <= 0)]] *)
Definition fraud (df : DataFrame) : DataFrame :=
  filter (fun r => Z_le0 (Quantity r) || Q_le0 (UnitPrice r)) df.

(** ** Customer segmentation *)

Record RFM : Type := mkRFM {
  Recency : option Z;
  Frequency : nat;
  Monetary : Q;
  Diversity : nat
}.

(** [df['InvoiceDate'].max() + timedelta(days=1)]; NaT on a frame without
    dates. *)
Definition snapshot_date (df : DataFrame) : option Z :=
  option_map (fun t => add_days t 1) (max_time (map InvoiceDate df)).

(** [lambda x: (snapshot_date - x.max()).days] *)
Definition recency (snapshot : option Z) (x : list (option Timestamp)) : option Z :=
  match snapshot, max_time x with
  | Some s, Some m => Some (timedelta_days s (to_seconds m))
  | _, _ => None
  end.

(** The frame [rfm], with the column [Diversity] joined on the customer. *)
Definition rfm (df : DataFrame) : Series Z RFM :=
  groupby_agg Z.eq_dec Z.leb CustomerID
    (fun g => {| Recency := recency (snapshot_date df) (map InvoiceDate g);
                 Frequency := count (map InvoiceNo g);
                 Monetary := sum_Q (map Revenue g);
                 Diversity := nunique string_dec (map Description g) |}) df.

(** ** Customer retention *)

(** [df.groupby("CustomerID")["InvoiceNo"].nunique()] *)
Definition repeat_customers (df : DataFrame) : Series Z nat :=
  groupby_agg Z.eq_dec Z.leb CustomerID
    (fun g => nunique string_dec (map InvoiceNo g)) df.

(** The percentage of customers with more than one invoice; NaN when there
    is no customer. *)
Definition repeat_rate (df : DataFrame) : option Q :=
  let rc := repeat_customers df in
  match List.length rc with
  | O => None
  | n => Some (inject_Z (Z.of_nat (List.length (filter (fun kv => (1 <? snd kv)%nat) rc)))
               / inject_Z (Z.of_nat n) * 100)%Q
  end.

(** [Series.mean()] of a column of whole numbers of days: NaN on a column
    without values. *)
Definition mean_Z (col : list (option Z)) : option Q :=
  match count col with
  | O => None
  | n => Some (inject_Z (sum_Z col) / inject_Z (Z.of_nat n))%Q
  end.

(** Order on cells that puts missing values last. *)
Definition option_leb {A : Type} (leb : A -> A -> bool) (x y : option A) : bool :=
  match x, y with
  | Some a, Some b => leb a b
  | Some _, None => true
  | None, Some _ => false
  | None, None => true
  end.

Definition date_leb (t u : Timestamp) : bool := to_seconds t <=? to_seconds u.

(** The order of [sort_values(["CustomerID","InvoiceDate"])]: by customer,
    then by date, missing values last. *)
Definition customer_date_leb (r1 r2 : Row) : bool :=
  match CustomerID r1, CustomerID r2 with
  | Some a, Some b =>
      (a <? b) || ((a =? b) && option_leb date_leb (InvoiceDate r1) (InvoiceDate r2))
  | Some _, None => true
  | None, Some _ => false
  | None, None => option_leb date_leb (InvoiceDate r1) (InvoiceDate r2)
  end.

(** [df.sort_values(["CustomerID","InvoiceDate"])] *)
Definition df_sorted (df : DataFrame) : DataFrame := sort customer_date_leb df.

(** [(InvoiceDate - PrevInvoice).dt.days]; missing when either date is. *)
Definition days_gap (prev cur : option Timestamp) : option Z :=
  match prev, cur with
  | Some p, Some c => Some (timedelta_days (to_seconds c) (to_seconds p))
  | _, _ => None
  end.

(** The column [DaysGap] of one customer: [PrevInvoice] is the customer's
    [InvoiceDate] column shifted by one row. *)
Definition days_gaps (dates : list (option Timestamp)) : list (option Z) :=
  map (fun pc => match fst pc with
                 | Some prev => days_gap prev (snd pc)
                 | None => None
                 end)
      (combine (shift 1 dates) dates).

(** [df_sorted.groupby('CustomerID')['DaysGap'].mean().dropna()] *)
Definition avg_gap (df : DataFrame) : Series Z Q :=
  flat_map (fun kv => match snd kv with Some a => [(fst kv, a)] | None => [] end)
    (groupby_agg Z.eq_dec Z.leb CustomerID
       (fun g => mean_Z (days_gaps (map InvoiceDate g))) (df_sorted df)).

(** The transaction rows that belong to customer [c]. *)
Definition rows_of_customer (c : Z) (df : DataFrame) : DataFrame :=
  filter (fun r => match CustomerID r with Some c' => c' =? c | None => false end) df.

(** ** Time-series analysis *)

Definition period_dec (x y : Z * Z) : {x = y} + {x <> y}.
Proof. decide equality; apply Z.eq_dec. Defined.

(** Chronological order of (year, month) periods. *)
Definition period_leb (x y : Z * Z) : bool :=
  (fst x <? fst y) || ((fst x =? fst y) && (snd x <=? snd y)).

(** [df['Month'] = df['InvoiceDate'].dt.to_period("M")] *)
Definition Month (r : Row) : option (Z * Z) :=
  option_map to_period_M (InvoiceDate r).

(** [df.groupby("Month")["Revenue"].sum().to_timestamp()]; a month is
    labelled by its (year, month). *)
Definition monthly_sales (df : DataFrame) : Series (Z * Z) Q :=
  groupby_agg period_dec period_leb Month (fun g => sum_Q (map Revenue g)) df.

(** A float that a division may produce. *)
Inductive Change : Type :=
| Finite (q : Q)
| Infinite (positive : bool)
| NotANumber.

(** [cur / prev - 1]: a division by zero gives an infinity of the sign of
    [cur], and 0 / 0 is NaN. *)
Definition relative_change (prev cur : Q) : Change :=
  if Qeq_bool prev 0
  then if Qeq_bool cur 0 then NotANumber else Infinite (Qle_bool 0 cur)
  else Finite (cur / prev - 1)%Q.

(** [Series.pct_change(periods)] *)
Definition pct_change {K : Type} (periods : nat) (s : Series K Q) : Series K Change :=
  combine (map fst s)
    (map (fun pc => match fst pc with
                    | Some prev => relative_change prev (snd pc)
                    | None => NotANumber
                    end)
         (combine (shift periods (map snd s)) (map snd s))).

(** [.dropna()] on a float Series *)
Definition dropna_changes {K : Type} (s : Series K Change) : Series K Change :=
  filter (fun kv => match snd kv with NotANumber => false | _ => true end) s.

(** [monthly_sales.pct_change(12).dropna()] *)
Definition yoy_growth (df : DataFrame) : Series (Z * Z) Change :=
  dropna_changes (pct_change 12 (monthly_sales df)).

(** [monthly_sales.pct_change().dropna()] *)
Definition mom_growth (df : DataFrame) : Series (Z * Z) Change :=
  dropna_changes (pct_change 1 (monthly_sales df)).

(** ** Basket analysis: the basket matrix *)

(** [df.groupby("Description")["Quantity"].sum()
       .sort_values(ascending=False).head(500).index] *)
Definition top_products (df : DataFrame) : list string :=
  map fst
    (firstn 500
       (sort_values_desc Z.leb
          (groupby_agg string_dec String.leb Description
                       (fun g => sum_int64 (map Quantity g)) df))).

(** [Series.isin]; a missing cell is in no list of labels. *)
Definition isin (x : option string) (labels : list string) : bool :=
  match x with
  | Some s => if in_dec string_dec s labels then true else false
  | None => false
  end.

(** [df[df['Description'].isin(top_products)]] *)
Definition df_small (df : DataFrame) : DataFrame :=
  let top := top_products df in
  filter (fun r => isin (Description r) top) df.

Definition invoice_product (r : Row) : option (string * string) :=
  match InvoiceNo r, Description r with
  | Some i, Some p => Some (i, p)
  | _, _ => None
  end.

(** [groupby(['InvoiceNo','Description'])['Quantity'].sum()] *)
Definition invoice_product_quantity (df : DataFrame) : Series (string * string) Z :=
  groupby_agg pair_dec pair_leb invoice_product
              (fun g => sum_int64 (map Quantity g)) df.

(** A boolean table with row labels [index] and column labels [columns]. *)
Record Basket : Type := mkBasket {
  index : list string;
  columns : list string;
  values : list (list bool)
}.

(** [.unstack().fillna(0)] followed by [> 0]: one row per invoice, one
    column per product, and 0 where the pair has no group. *)
Definition unstack_positive (s : Series (string * string) Z) : Basket :=
  let idx := sort String.leb (nodup string_dec (map (fun kv => fst (fst kv)) s)) in
  let cols := sort String.leb (nodup string_dec (map (fun kv => snd (fst kv)) s)) in
  {| index := idx;
     columns := cols;
     values :=
       map (fun i =>
              map (fun p =>
                     match series_get pair_dec (i, p) s with
                     | Some v => 0 <? v
                     | None => 0 <? 0
                     end) cols) idx |}.

Definition basket (df : DataFrame) : Basket :=
  unstack_positive (invoice_product_quantity (df_small df)).

Fixpoint index_of (x : string) (l : list string) : option nat :=
  match l with
  | [] => None
  | y :: l' => if string_dec x y then Some O else option_map S (index_of x l')
  end.

(** [basket.loc[invoice, product]]; [None] when the label is absent. *)
Definition basket_at (b : Basket) (invoice product : string) : option bool :=
  match index_of invoice (index b), index_of product (columns b) with
  | Some n, Some m =>
      match nth_error (values b) n with
      | Some row => nth_error row m
      | None => None
      end
  | _, _ => None
  end.

(** ** Basket analysis: mining with fallback *)

Inductive Exception : Type :=
| MemoryError
| KeyError
| AttributeError
| ValueError
| TypeError.

(** The outcome of a call that may raise. *)
Inductive Result (A : Type) : Type :=
| Ok (a : A)
| Raise (e : Exception).

Arguments Ok {A} a.
Arguments Raise {A} e.

Definition bind {A B : Type} (r : Result A) (k : A -> Result B) : Result B :=
  match r with
  | Ok a => k a
  | Raise e => Raise e
  end.

Record FrequentItemset : Type := mkFrequentItemset {
  support : Q;
  itemsets : list string
}.

Record Rule : Type := mkRule {
  antecedents : list string;
  consequents : list string;
  rule_support : Q;
  confidence : Q;
  lift : Q
}.

Inductive Metric : Type := MSupport | MConfidence | MLift.

Definition min_support : Q := 2 # 100.

Section BasketRules.

(** The three calls into the mining library: [apriori(basket,
    min_support, use_colnames)], [fpgrowth] likewise, and
    [association_rules(frequent_itemsets, metric, min_threshold)]. *)
Variable apriori : Basket -> Q -> bool -> Result (list FrequentItemset).
Variable fpgrowth : Basket -> Q -> bool -> Result (list FrequentItemset).
Variable association_rules :
  list FrequentItemset -> Metric -> Q -> Result (list Rule).

(** The try/except statement. *)
Definition frequent_itemsets (b : Basket) : Result (list FrequentItemset) :=
  match apriori b min_support true with
  | Raise MemoryError => fpgrowth b min_support true
  | r => r
  end.

Definition rules (df : DataFrame) : Result (list Rule) :=
  bind (frequent_itemsets (basket df))
       (fun fi => association_rules fi MLift 1%Q).

(** [rules.sort_values("lift", ascending=False).head(10)] *)
Definition top_rules (df : DataFrame) : Result (list Rule) :=
  bind (rules df)
       (fun rs => Ok (firstn 10 (sort (fun a b => Qle_bool (lift b) (lift a)) rs))).

End BasketRules.

(** ** Column assignments of the report handlers *)

(** The handlers assign new columns to [df] by name.  For these effects
    the frame is a table of named, typed columns. *)
Inductive Column : Type :=
| StrCol (cells : list (option string))
| IntCol (cells : list (option Z))
| NumCol (cells : list (option Q))
| TimeCol (cells : list (option Timestamp))
| PeriodCol (cells : list (option (Z * Z))).

Definition Frame : Type := list (string * Column).

(** [df[name]] *)
Fixpoint getitem (name : string) (df : Frame) : Result Column :=
  match df with
  | [] => Raise KeyError
  | (n, c) :: df' => if String.eqb name n then Ok c else getitem name df'
  end.

(** [df[name] = c]: replaces the column of that name, or appends one. *)
Fixpoint setitem (name : string) (c : Column) (df : Frame) : Frame :=
  match df with
  | [] => [(name, c)]
  | (n, c0) :: df' =>
      if String.eqb name n then (n, c) :: df' else (n, c0) :: setitem name c df'
  end.

(** The frame [load_data] returns, column by column. *)
Definition to_frame (df : DataFrame) : Frame :=
  [("InvoiceNo", StrCol (map InvoiceNo df));
   ("StockCode", StrCol (map StockCode df));
   ("Description", StrCol (map Description df));
   ("Quantity", IntCol (map Quantity df));
   ("InvoiceDate", TimeCol (map InvoiceDate df));
   ("UnitPrice", NumCol (map UnitPrice df));
   ("CustomerID", IntCol (map CustomerID df));
   ("Country", StrCol (map Country df));
   ("Revenue", NumCol (map Revenue df))].

Definition loader_columns : list string :=
  ["InvoiceNo"; "StockCode"; "Description"; "Quantity"; "InvoiceDate";
   "UnitPrice"; "CustomerID"; "Country"; "Revenue"].

(** The [.dt] accessor exists on datetime columns only. *)
Definition dt (c : Column) : Result (list (option Timestamp)) :=
  match c with
  | TimeCol ts => Ok ts
  | _ => Raise AttributeError
  end.

(** [col.apply(get_category)].  The text of a number, a date or a period
    contains no keyword, so every cell of such a column maps to "OTHER". *)
Definition apply_get_category (c : Column) : Column :=
  StrCol
    match c with
    | StrCol ds => map (fun d => Some (get_category (astype_str d))) ds
    | IntCol l => map (fun _ => Some "OTHER") l
    | NumCol l => map (fun _ => Some "OTHER") l
    | TimeCol l => map (fun _ => Some "OTHER") l
    | PeriodCol l => map (fun _ => Some "OTHER") l
    end.

Notation "x <- e ;; k" := (bind e (fun x => k))
  (at level 61, e at next level, right associativity).

(** What running the handler of [choice] does to [df]: the assignments
    [df['DayOfWeek']], [df['Hour']], [df['Category']] of the sales view and
    [df['Month']] of the time-series view.  The other six handlers read [df]
    and assign only to frames of their own ([df_small], [df_sorted], ...). *)
Definition handler_effect (choice : Choice) (df : Frame) : Result Frame :=
  match choice with
  | SalesPerformance =>
      d <- getitem "InvoiceDate" df ;;
      ts <- dt d ;;
      let df := setitem "DayOfWeek" (StrCol (map (option_map day_name) ts)) df in
      d <- getitem "InvoiceDate" df ;;
      ts <- dt d ;;
      let df := setitem "Hour" (IntCol (map (option_map hour) ts)) df in
      d <- getitem "Description" df ;;
      Ok (setitem "Category" (apply_get_category d) df)
  | TimeSeriesAnalysis =>
      d <- getitem "InvoiceDate" df ;;
      ts <- dt d ;;
      Ok (setitem "Month" (PeriodCol (map (option_map to_period_M) ts)) df)
  | _ => Ok df
  end.

(** ** Concrete library behaviour for running the handlers

    [Reference] gives one behaviour of each library call, after the
    library's documentation, so that the handlers can be evaluated on
    concrete files: a date parser for the file's "M/D/YYYY H:MM" format, a
    miner that returns every itemset whose support reaches the threshold,
    the rules derived from such itemsets, and a miner that runs out of
    memory. *)
Module Reference.

Definition is_digit (c : ascii) : bool :=
  ((48 <=? nat_of_ascii c) && (nat_of_ascii c <=? 57))%nat.

Fixpoint read_number (s : string) (acc : option Z) : option Z * string :=
  match s with
  | String c s' =>
      if is_digit c
      then read_number s'
             (Some (10 * match acc with Some a => a | None => 0 end
                    + Z.of_nat (nat_of_ascii c - 48)))
      else (acc, s)
  | EmptyString => (acc, s)
  end.

Definition skip (c : ascii) (s : string) : option string :=
  match s with
  | String c' s' => if Ascii.eqb c c' then Some s' else None
  | EmptyString => None
  end.

Definition parse_date (s : string) : option Timestamp :=
  match read_number s None with
  | (Some m, s) =>
    match skip "/" s with
    | Some s =>
      match read_number s None with
      | (Some d, s) =>
        match skip "/" s with
        | Some s =>
          match read_number s None with
          | (Some y, s) =>
            match skip " " s with
            | Some s =>
              match read_number s None with
              | (Some h, s) =>
                match skip ":" s with
                | Some s =>
                  match read_number s None with
                  | (Some mi, EmptyString) => Some (mkTimestamp y m d h mi 0)
                  | _ => None
                  end
                | None => None
                end
              | _ => None
              end
            | None => None
            end
          | _ => None
          end
        | None => None
        end
      | _ => None
      end
    | None => None
    end
  | _ => None
  end.

Definition to_datetime (x : option string) : option Timestamp :=
  match x with
  | Some s => parse_date s
  | None => None
  end.

Fixpoint sublists (l : list string) : list (list string) :=
  match l with
  | [] => [[]]
  | x :: l' => map (cons x) (sublists l') ++ sublists l'
  end.

Definition row_has (cols : list string) (row : list bool) (item : string) : bool :=
  match index_of item cols with
  | Some m => nth m row false
  | None => false
  end.

(** The fraction of baskets that contain every item of [items]. *)
Definition support_of (b : Basket) (items : list string) : Q :=
  (inject_Z (Z.of_nat (List.length
      (filter (fun row => forallb (row_has (columns b) row) items) (values b))))
   / inject_Z (Z.of_nat (List.length (values b))))%Q.

Definition mine (b : Basket) (min_support : Q) (use_colnames : bool)
  : Result (list FrequentItemset) :=
  Ok (filter (fun fi => Qle_bool min_support (support fi))
        (map (fun s => {| support := support_of b s; itemsets := s |})
             (filter (fun s => negb (Nat.eqb (List.length s) 0))
                     (sublists (columns b))))).

Definition out_of_memory (b : Basket) (min_support : Q) (use_colnames : bool)
  : Result (list FrequentItemset) :=
  Raise MemoryError.

Fixpoint splits (l : list string) : list (list string * list string) :=
  match l with
  | [] => [([], [])]
  | x :: l' =>
      flat_map (fun ac => [(x :: fst ac, snd ac); (fst ac, x :: snd ac)])
               (splits l')
  end.

Definition support_lookup (items : list string) (fis : list FrequentItemset)
  : option Q :=
  option_map support
    (find (fun fi => if list_eq_dec string_dec (itemsets fi) items
                     then true else false) fis).

Definition metric_value (m : Metric) (r : Rule) : Q :=
  match m with
  | MSupport => rule_support r
  | MConfidence => confidence r
  | MLift => lift r
  end.

Definition rules_of (metric : Metric) (min_threshold : Q)
    (fis : list FrequentItemset) (fi : FrequentItemset) : list Rule :=
  flat_map
    (fun ac =>
       match fst ac, snd ac with
       | _ :: _, _ :: _ =>
           match support_lookup (fst ac) fis, support_lookup (snd ac) fis with
           | Some sa, Some sc =>
               let r := {| antecedents := fst ac;
                           consequents := snd ac;
                           rule_support := support fi;
                           confidence := (support fi / sa)%Q;
                           lift := (support fi / sa / sc)%Q |} in
               if Qle_bool min_threshold (metric_value metric r) then [r] else []
           | _, _ => []
           end
       | _, _ => []
       end)
    (splits (itemsets fi)).

(** Rule derivation refuses an empty table of itemsets. *)
Definition derive_rules (fis : list FrequentItemset) (metric : Metric)
    (min_threshold : Q) : Result (list Rule) :=
  match fis with
  | [] => Raise ValueError
  | _ => Ok (flat_map (rules_of metric min_threshold fis) fis)
  end.

End Reference.

(** ** Sample files *)

Module Sample.

Definition line (invoice stock description : string) (quantity : Z)
    (date : string) (price : Q) (customer : Z) (country : string) : Raw.Row :=
  {| Raw.InvoiceNo := Some invoice;
     Raw.StockCode := Some stock;
     Raw.Description := Some description;
     Raw.Quantity := Some quantity;
     Raw.InvoiceDate := Some date;
     Raw.UnitPrice := Some price;
     Raw.CustomerID := Some customer;
     Raw.Country := Some country |}.

(** Two customers, four invoices, one cancellation and one record
    without customer. *)
Definition csv : list Raw.Row :=
  [line "536365" "85123A" "WHITE HANGING HEART T-LIGHT HOLDER" 6
        "12/1/2010 8:26" 2.55 17850 "United Kingdom";
   line "536365" "71053" "WHITE METAL LANTERN" 6
        "12/1/2010 8:26" 3.39 17850 "United Kingdom";
   line "536366" "22633" "HAND WARMER UNION JACK" 6
        "12/1/2010 8:28" 1.85 17850 "United Kingdom";
   line "C536379" "D" "Discount" (-1)
        "12/1/2010 9:41" 27.50 14527 "United Kingdom";
   line "536370" "22728" "ALARM CLOCK BAKELIKE PINK" 24
        "12/1/2010 8:45" 3.75 12583 "France";
   line "536371" "85123A" "WHITE HANGING HEART T-LIGHT HOLDER" 2
        "12/2/2010 8:45" 2.55 12583 "France";
   line "536371" "71053" "WHITE METAL LANTERN" 1
        "12/2/2010 8:45" 3.39 12583 "France";
   {| Raw.InvoiceNo := Some "536414";
      Raw.StockCode := Some "22139";
      Raw.Description := None;
      Raw.Quantity := Some 56;
      Raw.InvoiceDate := Some "12/1/2010 11:52";
      Raw.UnitPrice := Some 0%Q;
      Raw.CustomerID := None;
      Raw.Country := Some "United Kingdom" |}].

(** The second record has an empty country field. *)
Definition csv_missing_country : list Raw.Row :=
  [line "536365" "85123A" "WHITE HANGING HEART T-LIGHT HOLDER" 6
        "12/1/2010 8:26" 2.55 17850 "United Kingdom";
   {| Raw.InvoiceNo := Some "536365";
      Raw.StockCode := Some "71053";
      Raw.Description := Some "WHITE METAL LANTERN";
      Raw.Quantity := Some 6;
      Raw.InvoiceDate := Some "12/1/2010 8:26";
      Raw.UnitPrice := Some 3.39%Q;
      Raw.CustomerID := Some 17850;
      Raw.Country := None |}].

(** The only record has an empty invoice-number field. *)
Definition csv_missing_invoice : list Raw.Row :=
  [{| Raw.InvoiceNo := None;
      Raw.StockCode := Some "85123A";
      Raw.Description := Some "WHITE HANGING HEART T-LIGHT HOLDER";
      Raw.Quantity := Some 6;
      Raw.InvoiceDate := Some "12/1/2010 8:26";
      Raw.UnitPrice := Some 2.55%Q;
      Raw.CustomerID := Some 17850;
      Raw.Country := Some "United Kingdom" |}].

(** Two months: December 2010 and January 2011. *)
Definition csv_two_months : list Raw.Row :=
  [line "536365" "85123A" "WHITE HANGING HEART T-LIGHT HOLDER" 6
        "12/1/2010 8:26" 2.55 17850 "United Kingdom";
   line "539993" "22386" "JUMBO BAG PINK POLKADOT" 10
        "1/4/2011 10:00" 1.95 13313 "United Kingdom"].

(** One invoice with one product. *)
Definition csv_one_product : list Raw.Row :=
  [line "536365" "85123A" "WHITE HANGING HEART T-LIGHT HOLDER" 6
        "12/1/2010 8:26" 2.55 17850 "United Kingdom"].

Definition product_name (n : nat) : string :=
  "P" ++ NilEmpty.string_of_uint (Nat.to_uint n).

(** One invoice with 501 products; product [n] is bought [n + 1] times,
    so "P0" has the smallest total quantity. *)
Definition csv_501_products : list Raw.Row :=
  map (fun n => line "536365" "85123A" (product_name n) (Z.of_nat n + 1)
                     "12/1/2010 8:26" 2.55 17850 "United Kingdom")
      (seq 0 501).

(** One invoice with two records of one product, 2^62 pieces each: the
    quantities add up to 2^63, one more than the largest int64. *)
Definition csv_overflow : list Raw.Row :=
  [line "536365" "85123A" "P0" (2 ^ 62) "12/1/2010 8:26" 2.55 17850
        "United Kingdom";
   line "536365" "85123A" "P0" (2 ^ 62) "12/1/2010 8:26" 2.55 17850
        "United Kingdom"].

End Sample.

(** * Properties *)

Lemma load_data_In to_datetime csv r :
  In r (load_data to_datetime csv) <->
  exists r0, with_date_and_revenue to_datetime r0 = r /\ In r0 csv
             /\ notna (Raw.CustomerID r0) = true
             /\ startswith "C" (astype_str (Raw.InvoiceNo r0)) = false
             /\ Z_gt0 (Raw.Quantity r0) = true.
Proof.
  unfold load_data, keep_positive_quantity, drop_cancellations, dropna_CustomerID.
  rewrite in_map_iff. split.
  - intros (r0 & Hr & Hin). exists r0. split; [exact Hr|].
    repeat (apply filter_In in Hin; destruct Hin as [Hin ?]).
    rewrite negb_true_iff in *. auto.
  - intros (r0 & Hr & Hin & H1 & H2 & H3). exists r0. split; [exact Hr|].
    repeat (apply filter_In; split); auto. now rewrite negb_true_iff.
Qed.

Lemma load_data_Forall_cleaned to_datetime csv :
  Forall cleaned (load_data to_datetime csv).
Proof.
  apply Forall_forall. intros r Hr.
  apply load_data_In in Hr.
  destruct Hr as (r0 & <- & _ & Hc & Hi & Hq).
  unfold cleaned; simpl. repeat split.
  - destruct (Raw.CustomerID r0); [discriminate | discriminate Hc].
  - destruct (Raw.Quantity r0) as [q|]; [|discriminate Hq].
    exists q. split; [reflexivity|]. now apply Z.ltb_lt.
  - exact Hi.
Qed.

(** C1. Every record of the frame the loader returns has a customer
    identifier, a strictly positive quantity, and an invoice identifier
    whose text does not start with 'C'. *)
Theorem loader_invariant to_datetime csv :
  Forall (fun r =>
            CustomerID r <> None
            /\ (exists q, Quantity r = Some q /\ 0 < q)
            /\ startswith "C" (astype_str (InvoiceNo r)) = false)
         (load_data to_datetime csv).
Proof. exact (load_data_Forall_cleaned to_datetime csv). Qed.

(** C2. In every record of the frame the loader returns, the revenue is
    the product of the record's quantity and unit price (missing when the
    unit price is missing). *)
Theorem revenue_is_quantity_times_price to_datetime csv :
  Forall (fun r =>
            Revenue r = mul_cells (Quantity r) (UnitPrice r)
            /\ forall p, UnitPrice r = Some p ->
                 exists q, Quantity r = Some q
                           /\ Revenue r = Some (inject_Z q * p)%Q)
         (load_data to_datetime csv).
Proof.
  apply Forall_forall. intros r Hr.
  apply load_data_In in Hr.
  destruct Hr as (r0 & <- & _ & _ & _ & Hq). simpl.
  split; [reflexivity|]. intros p Hp.
  destruct (Raw.Quantity r0) as [q|]; [|discriminate Hq].
  exists q. rewrite Hp. split; reflexivity.
Qed.

(** C9. On the frame the loader returns, no record has a quantity <= 0, so
    the fraud view flags exactly the records whose unit price is <= 0. *)
Theorem fraud_is_nonpositive_price to_datetime csv :
  let df := load_data to_datetime csv in
  Forall (fun r => Z_le0 (Quantity r) = false) df
  /\ fraud df = filter (fun r => Q_le0 (UnitPrice r)) df
  /\ Forall (fun r => exists p, UnitPrice r = Some p /\ (p <= 0)%Q) (fraud df).
Proof.
  intros df.
  assert (Hq : Forall (fun r => Z_le0 (Quantity r) = false) df).
  { eapply Forall_impl; [|apply (load_data_Forall_cleaned to_datetime csv)].
    intros r (_ & (q & Hq & Hpos) & _). rewrite Hq. simpl.
    apply Z.leb_gt. exact Hpos. }
  assert (Hf : fraud df = filter (fun r => Q_le0 (UnitPrice r)) df).
  { unfold fraud. apply filter_ext_in. intros r Hr.
    rewrite Forall_forall in Hq. now rewrite (Hq r Hr). }
  repeat split; [exact Hq | exact Hf |].
  rewrite Hf. apply Forall_forall. intros r Hr.
  apply filter_In in Hr. destruct Hr as [_ Hr].
  destruct (UnitPrice r) as [p|]; [|discriminate Hr].
  exists p. split; [reflexivity|]. now apply Qle_bool_iff.
Qed.

(** ** Sorting and missing values *)

Section SortFacts.

Context {A : Type} (leb : A -> A -> bool).

Lemma insert_sorted_perm x l : Permutation (insert_sorted leb x l) (x :: l).
Proof.
  induction l as [|y l IH]; simpl.
  - reflexivity.
  - destruct (leb x y).
    + reflexivity.
    + rewrite IH. apply perm_swap.
Qed.

Lemma sort_perm l : Permutation (sort leb l) l.
Proof.
  induction l as [|x l IH]; simpl.
  - constructor.
  - rewrite insert_sorted_perm. now constructor.
Qed.

Lemma sort_In x l : In x (sort leb l) <-> In x l.
Proof.
  split; apply Permutation_in; [apply sort_perm | symmetry; apply sort_perm].
Qed.

Lemma sort_NoDup l : NoDup l -> NoDup (sort leb l).
Proof.
  intros H. eapply Permutation_NoDup; [symmetry; apply sort_perm | exact H].
Qed.

End SortFacts.

Lemma dropna_In {A : Type} (a : A) col : In a (dropna col) <-> In (Some a) col.
Proof.
  unfold dropna. rewrite in_flat_map. split.
  - intros ([b|] & Hin & Hb); simpl in Hb; [|contradiction].
    destruct Hb as [->|[]]. exact Hin.
  - intros Hin. exists (Some a). split; [exact Hin | now left].
Qed.

Lemma dropna_cons_Some {A : Type} (a : A) col :
  dropna (Some a :: col) = a :: dropna col.
Proof. reflexivity. Qed.

Lemma dropna_cons_None {A : Type} (col : list (option A)) :
  dropna (None :: col) = dropna col.
Proof. reflexivity. Qed.

(** ** Group-by *)

Section GroupByFacts.

Context {R K : Type}.
Variable K_dec : forall x y : K, {x = y} + {x <> y}.
Variable K_leb : K -> K -> bool.
Variable key : R -> option K.

Lemma has_key_true k x : has_key K_dec k x = true <-> x = Some k.
Proof.
  unfold has_key. destruct x as [k'|].
  - destruct (K_dec k k') as [E|Hne]; split; intros H; try discriminate.
    + now subst.
    + reflexivity.
    + inversion H. congruence.
  - split; discriminate.
Qed.

Lemma group_keys_In k df :
  In k (group_keys K_dec K_leb key df) <-> exists r, In r df /\ key r = Some k.
Proof.
  unfold group_keys. rewrite sort_In, nodup_In, dropna_In, in_map_iff.
  split; intros (r & H1 & H2); exists r; auto.
Qed.

Lemma group_keys_NoDup df : NoDup (group_keys K_dec K_leb key df).
Proof. apply sort_NoDup, NoDup_nodup. Qed.

Lemma get_group_In k df r :
  In r (get_group K_dec key k df) <-> In r df /\ key r = Some k.
Proof. unfold get_group. now rewrite filter_In, has_key_true. Qed.

Lemma series_get_map {V : Type} (f : K -> V) k ks :
  series_get K_dec k (map (fun k' => (k', f k')) ks)
  = if in_dec K_dec k ks then Some (f k) else None.
Proof.
  induction ks as [|k' ks IH]; simpl.
  - reflexivity.
  - destruct (K_dec k k') as [E|Hne].
    + subst k'. destruct (K_dec k k); [reflexivity | congruence].
    + rewrite IH. destruct (K_dec k' k) as [E|Hne']; [congruence|].
      now destruct (in_dec K_dec k ks).
Qed.

(** Reading the aggregate of one label. *)
Lemma series_get_groupby {V : Type} (f : list R -> V) k df :
  series_get K_dec k (groupby_agg K_dec K_leb key f df)
  = if in_dec K_dec k (group_keys K_dec K_leb key df)
    then Some (f (get_group K_dec key k df)) else None.
Proof.
  unfold groupby_agg.
  apply (series_get_map (fun k' => f (get_group K_dec key k' df))).
Qed.

Lemma concat_groups_skip (g : K -> list R) r k0 ks :
  ~ In k0 ks ->
  map (fun k => if has_key K_dec k (Some k0) then r :: g k else g k) ks
  = map g ks.
Proof.
  intros Hn. apply map_ext_in. intros k Hk. simpl.
  destruct (K_dec k k0) as [E|Hne]; [|reflexivity].
  subst k. contradiction.
Qed.

Lemma concat_groups_cons (g : K -> list R) r k0 ks :
  NoDup ks -> In k0 ks ->
  Permutation
    (List.concat (map (fun k => if has_key K_dec k (Some k0) then r :: g k else g k) ks))
    (r :: List.concat (map g ks)).
Proof.
  induction 1 as [|k ks Hn Hnd IH]; intros Hin.
  - contradiction.
  - cbn [map List.concat]. unfold has_key at 1.
    destruct (K_dec k k0) as [E|Hne].
    + subst k. rewrite (concat_groups_skip g r k0 ks Hn). reflexivity.
    + destruct Hin as [E|Hin]; [congruence|].
      rewrite (IH Hin). symmetry. apply Permutation_middle.
Qed.

(** Grouping partitions the rows that have a key: every such row is in the
    group of exactly one label, and a row without key is in no group. *)
Lemma groupby_partition_keys ks df :
  NoDup ks ->
  (forall r k, In r df -> key r = Some k -> In k ks) ->
  Permutation (List.concat (map (fun k => get_group K_dec key k df) ks))
              (filter (fun r => notna (key r)) df).
Proof.
  intros Hnd. induction df as [|r df IH]; intros Hks.
  - simpl. induction ks as [|k ks IHk]; [reflexivity|].
    simpl. inversion Hnd; subst. apply IHk; [assumption|].
    intros r k' Hr. contradiction.
  - assert (Hks' : forall r' k, In r' df -> key r' = Some k -> In k ks).
    { intros r' k Hin. apply Hks. now right. }
    specialize (IH Hks').
    assert (Hmap : map (fun k => get_group K_dec key k (r :: df)) ks
                   = map (fun k => if has_key K_dec k (key r)
                                   then r :: get_group K_dec key k df
                                   else get_group K_dec key k df) ks).
    { apply map_ext. intros k. reflexivity. }
    rewrite Hmap. simpl. destruct (key r) as [k0|] eqn:Hk; simpl.
    + rewrite (concat_groups_cons (fun k => get_group K_dec key k df) r k0 ks Hnd).
      * now constructor.
      * apply (Hks r k0); [now left | exact Hk].
    + exact IH.
Qed.

End GroupByFacts.

(** ** The groups behind a table *)

Lemma groupby_agg_keys {R K V : Type}
    (K_dec : forall x y : K, {x = y} + {x <> y}) K_leb
    (key : R -> option K) (f : list R -> V) df :
  map fst (groupby_agg K_dec K_leb key f df) = group_keys K_dec K_leb key df.
Proof. unfold groupby_agg. rewrite map_map. simpl. apply map_id. Qed.

Lemma In_groupby_agg {R K V : Type}
    (K_dec : forall x y : K, {x = y} + {x <> y}) K_leb
    (key : R -> option K) (f : list R -> V) df k v :
  In (k, v) (groupby_agg K_dec K_leb key f df) ->
  v = f (get_group K_dec key k df)
  /\ In k (group_keys K_dec K_leb key df).
Proof.
  unfold groupby_agg. intros H. apply in_map_iff in H.
  destruct H as (k' & E & Hk). inversion E; subst. auto.
Qed.

Lemma filter_notna_all {R A : Type} (f : R -> option A) (l : list R) :
  Forall (fun r => f r <> None) l -> filter (fun r => notna (f r)) l = l.
Proof.
  induction 1 as [|r l Hr _ IH]; simpl.
  - reflexivity.
  - destruct (f r); [|congruence]. simpl. now f_equal.
Qed.

(** A table made by [groupby], in any row order: its labels are distinct,
    each row holds the aggregate of the group of its label, and the
    groups of its rows partition the records that have a key. *)
Lemma groupby_agg_partition {R K V : Type}
    (K_dec : forall x y : K, {x = y} + {x <> y}) K_leb
    (key : R -> option K) (f : list R -> V) (s : Series K V) df :
  Permutation s (groupby_agg K_dec K_leb key f df) ->
  NoDup (map fst s)
  /\ (forall k v, In (k, v) s -> v = f (get_group K_dec key k df))
  /\ Permutation
       (List.concat (map (fun kv => get_group K_dec key (fst kv) df) s))
       (filter (fun r => notna (key r)) df).
Proof.
  intros Hs.
  assert (Hp : Permutation (map fst s) (group_keys K_dec K_leb key df)).
  { rewrite <- (groupby_agg_keys K_dec K_leb key f df).
    now apply Permutation_map. }
  assert (Hnd : NoDup (map fst s)).
  { eapply Permutation_NoDup; [symmetry; exact Hp | apply group_keys_NoDup]. }
  split; [exact Hnd|]. split.
  - intros k v Hin. apply (Permutation_in _ Hs) in Hin.
    apply In_groupby_agg in Hin. tauto.
  - rewrite <- (map_map fst (fun k => get_group K_dec key k df)).
    apply groupby_partition_keys; [exact Hnd|].
    intros r k Hr Hk. apply (Permutation_in _ (Permutation_sym Hp)).
    apply group_keys_In. now exists r.
Qed.

(** ** Revenue by country *)

(** C3, amended. Grouping by country partitions the records that have a
    country: the rows of [country_sales] are the distinct countries, each
    row holds the sum of the revenues of the records of its country, every
    record with a country belongs to the group of exactly one row and a
    record without country to none.  When every record has a country the
    groups partition the whole frame, so the per-country aggregates and
    the total revenue add up the revenues of the same records. *)
Theorem country_sales_partition df :
  let groups :=
    map (fun kv => get_group string_dec Country (fst kv) df) (country_sales df) in
  NoDup (map fst (country_sales df))
  /\ (forall c v, In (c, v) (country_sales df) ->
        v = sum_Q (map Revenue (get_group string_dec Country c df)))
  /\ Permutation (List.concat groups) (filter (fun r => notna (Country r)) df)
  /\ (Forall (fun r => Country r <> None) df ->
      Permutation (List.concat groups) df).
Proof.
  intros groups.
  destruct (groupby_agg_partition string_dec String.leb Country
              (fun g => sum_Q (map Revenue g)) (country_sales df) df)
    as (Hnd & Hval & Hparts).
  { unfold country_sales, sort_values_desc. apply sort_perm. }
  split; [exact Hnd|]. split; [exact Hval|]. split; [exact Hparts|].
  intros Hall. unfold groups. rewrite Hparts.
  now rewrite filter_notna_all.
Qed.

(** C3 as stated fails. A record without country survives cleaning and
    belongs to no country group: the per-country aggregates add up to 15.30
    while the total revenue is 35.64. *)
Lemma country_sales_misses_record_without_country :
  let df := load_data Reference.to_datetime Sample.csv_missing_country in
  Forall cleaned df
  /\ ~ (series_sum (country_sales df) == total_revenue df)%Q.
Proof.
  intros df. split.
  - apply load_data_Forall_cleaned.
  - intros H. vm_compute in H. discriminate H.
Qed.

(** ** The basket matrix *)

Lemma index_of_nth x l n : index_of x l = Some n -> nth_error l n = Some x.
Proof.
  revert n. induction l as [|y l IH]; simpl; intros n H.
  - discriminate.
  - destruct (string_dec x y) as [E|_].
    + inversion H. subst. reflexivity.
    + destruct (index_of x l) as [m|]; [|discriminate].
      inversion H. simpl. now apply IH.
Qed.

Lemma index_of_In x l : In x l -> exists n, index_of x l = Some n.
Proof.
  induction l as [|y l IH]; simpl; intros H.
  - contradiction.
  - destruct (string_dec x y) as [E|Hne].
    + now exists O.
    + destruct H as [H|H]; [congruence|].
      destruct (IH H) as (n & ->). now exists (S n).
Qed.

Lemma index_of_Some_In x l n : index_of x l = Some n -> In x l.
Proof. intros H. apply index_of_nth in H. eapply nth_error_In; eassumption. Qed.

(** The entry of a pivoted table, read through its labels. *)
Lemma basket_at_unstack s i p b :
  basket_at (unstack_positive s) i p = Some b <->
  In i (index (unstack_positive s)) /\ In p (columns (unstack_positive s))
  /\ b = match series_get pair_dec (i, p) s with
         | Some v => 0 <? v
         | None => false
         end.
Proof.
  unfold basket_at.
  set (idx := index (unstack_positive s)).
  set (cols := columns (unstack_positive s)).
  split.
  - destruct (index_of i idx) as [n|] eqn:Hn; [|discriminate].
    destruct (index_of p cols) as [m|] eqn:Hm; [|discriminate].
    pose proof (index_of_nth _ _ _ Hn) as Hn'.
    pose proof (index_of_nth _ _ _ Hm) as Hm'.
    unfold unstack_positive; simpl. fold idx. fold cols.
    rewrite (map_nth_error _ _ _ Hn'), (map_nth_error _ _ _ Hm').
    intros H. inversion H.
    repeat split; eauto using index_of_Some_In.
  - intros (Hi & Hp & ->).
    destruct (index_of_In _ _ Hi) as (n & Hn).
    destruct (index_of_In _ _ Hp) as (m & Hm).
    rewrite Hn, Hm.
    pose proof (index_of_nth _ _ _ Hn) as Hn'.
    pose proof (index_of_nth _ _ _ Hm) as Hm'.
    unfold unstack_positive; simpl. fold idx. fold cols.
    now rewrite (map_nth_error _ _ _ Hn'), (map_nth_error _ _ _ Hm').
Qed.

Lemma invoice_product_Some r i p :
  invoice_product r = Some (i, p) <-> InvoiceNo r = Some i /\ Description r = Some p.
Proof.
  unfold invoice_product.
  destruct (InvoiceNo r), (Description r); split; intros H;
    try discriminate; try (destruct H; discriminate).
  - inversion H. auto.
  - destruct H as [H1 H2]. inversion H1. inversion H2. reflexivity.
Qed.

Lemma df_small_In df r :
  In r (df_small df) <->
  In r df /\ exists p, Description r = Some p /\ In p (top_products df).
Proof.
  unfold df_small, isin. cbv zeta. rewrite filter_In. split.
  - intros (Hr & H). split; [exact Hr|].
    destruct (Description r) as [p|]; [|discriminate].
    exists p. split; [reflexivity|].
    destruct (in_dec string_dec p (top_products df)); [assumption|discriminate].
  - intros (Hr & p & Hp & Hin). split; [exact Hr|]. rewrite Hp.
    destruct (in_dec string_dec p (top_products df)); [reflexivity|contradiction].
Qed.

Lemma sum_Z_cons_Some q col : sum_Z (Some q :: col) = q + sum_Z col.
Proof. reflexivity. Qed.

Lemma sum_Z_cleaned_nonneg g : Forall cleaned g -> 0 <= sum_Z (map Quantity g).
Proof.
  induction 1 as [|r g Hr _ IH].
  - unfold sum_Z; simpl; lia.
  - destruct Hr as (_ & (q & Hq & Hpos) & _).
    simpl. rewrite Hq, sum_Z_cons_Some. lia.
Qed.

(** A non-empty group of cleaned records has a positive total quantity. *)
Lemma sum_Z_cleaned_pos g :
  Forall cleaned g -> g <> [] -> 0 < sum_Z (map Quantity g).
Proof.
  intros H Hne. destruct H as [|r g Hr Hg]; [congruence|].
  destruct Hr as (_ & (q & Hq & Hpos) & _).
  pose proof (sum_Z_cleaned_nonneg g Hg).
  simpl. rewrite Hq, sum_Z_cons_Some. lia.
Qed.

(** ** Column assignments *)

(** C7. Running any report handler on the frame the loader built succeeds
    and leaves the loader's nine columns as they were, names, order and
    values: the frame after the handler is the frame before it followed by
    the derived columns the handler added. *)
Theorem handlers_keep_loader_columns (choice : Choice) (df : DataFrame) :
  exists df',
    handler_effect choice (to_frame df) = Ok df'
    /\ Forall (fun c => getitem c df' = getitem c (to_frame df)) loader_columns
    /\ exists derived,
         df' = (to_frame df ++ derived)%list
         /\ Forall (fun nc => ~ In (fst nc) loader_columns) derived.
Proof.
  destruct choice; simpl; eexists; (split; [reflexivity|]); split;
    try (repeat constructor);
    (eexists; split; [reflexivity|]);
    repeat constructor; simpl; intuition discriminate.
Qed.

(** ** Mining with fallback *)

(** C4. When [apriori] raises MemoryError on the basket, the handler calls
    [fpgrowth] on the same basket with the same threshold 0.02 and takes its
    result.  Nothing else is recovered: any other exception of [apriori], and
    any exception of [fpgrowth] or of [association_rules], ends the handler. *)
Theorem memory_error_retries_with_fpgrowth
    (apriori fpgrowth : Basket -> Q -> bool -> Result (list FrequentItemset))
    (association_rules : list FrequentItemset -> Metric -> Q -> Result (list Rule))
    (df : DataFrame) (e : Exception) :
  let b := basket df in
  (apriori b (2 # 100) true = Raise MemoryError ->
     frequent_itemsets apriori fpgrowth b = fpgrowth b (2 # 100) true)
  /\ (apriori b (2 # 100) true = Raise e -> e <> MemoryError ->
      rules apriori fpgrowth association_rules df = Raise e)
  /\ (apriori b (2 # 100) true = Raise MemoryError ->
      fpgrowth b (2 # 100) true = Raise e ->
      rules apriori fpgrowth association_rules df = Raise e)
  /\ (forall fi, frequent_itemsets apriori fpgrowth b = Ok fi ->
      association_rules fi MLift 1%Q = Raise e ->
      rules apriori fpgrowth association_rules df = Raise e).
Proof.
  intros b. unfold rules, frequent_itemsets, min_support. fold b.
  repeat split.
  - intros Ha. now rewrite Ha.
  - intros Ha Hne. rewrite Ha. destruct e; try reflexivity. congruence.
  - intros Ha Hf. now rewrite Ha, Hf.
  - intros fi Hfi Hr. rewrite Hfi. simpl. exact Hr.
Qed.

Lemma memory_error_retries_with_fpgrowth_witness :
  let df := load_data Reference.to_datetime Sample.csv in
  frequent_itemsets Reference.out_of_memory Reference.mine (basket df)
  = Reference.mine (basket df) (2 # 100) true
  /\ rules (fun _ _ _ => Raise TypeError) Reference.mine Reference.derive_rules df
     = Raise TypeError
  /\ rules Reference.out_of_memory Reference.out_of_memory Reference.derive_rules df
     = Raise MemoryError
  /\ rules Reference.mine Reference.mine Reference.derive_rules []
     = Raise ValueError.
Proof.
  intros df. split; [|split; [|split]].
  - apply (proj1 (memory_error_retries_with_fpgrowth
                    Reference.out_of_memory Reference.mine Reference.derive_rules
                    df MemoryError)).
    reflexivity.
  - apply (proj1 (proj2 (memory_error_retries_with_fpgrowth
                    (fun _ _ _ => Raise TypeError) Reference.mine
                    Reference.derive_rules df TypeError))).
    + reflexivity.
    + discriminate.
  - apply (proj1 (proj2 (proj2 (memory_error_retries_with_fpgrowth
                    Reference.out_of_memory Reference.out_of_memory
                    Reference.derive_rules df MemoryError)))); reflexivity.
  - apply (proj2 (proj2 (proj2 (memory_error_retries_with_fpgrowth
                    Reference.mine Reference.mine Reference.derive_rules
                    [] ValueError))) []); reflexivity.
Defined.

(** C6 as stated fails. On a file with one invoice of one product the
    primary miner runs out of memory, the fallback returns the single
    frequent itemset, and no rule can be derived from it: the rule set of
    the fallback path is empty. *)
Lemma fallback_rule_set_can_be_empty :
  let df := load_data Reference.to_datetime Sample.csv_one_product in
  Reference.out_of_memory (basket df) min_support true = Raise MemoryError
  /\ rules Reference.out_of_memory Reference.mine Reference.derive_rules df = Ok []
  /\ ~ (exists rs, rules Reference.out_of_memory Reference.mine
                         Reference.derive_rules df = Ok rs /\ rs <> []).
Proof.
  intros df.
  assert (H : rules Reference.out_of_memory Reference.mine Reference.derive_rules df
              = Ok []) by (vm_compute; reflexivity).
  split; [reflexivity | split; [exact H|]].
  intros (rs & Hrs & Hne). rewrite H in Hrs. inversion Hrs. congruence.
Qed.

(** C6, amended. When [apriori] raises MemoryError, [fpgrowth] returns the
    itemsets [fi] and [association_rules] returns [rs] for them, the rule set
    of the handler is [rs], empty or not, and the table shown is its ten
    rules of highest lift. *)
Theorem fallback_rules_come_from_fpgrowth
    (apriori fpgrowth : Basket -> Q -> bool -> Result (list FrequentItemset))
    (association_rules : list FrequentItemset -> Metric -> Q -> Result (list Rule))
    (df : DataFrame) (fi : list FrequentItemset) (rs : list Rule) :
  apriori (basket df) min_support true = Raise MemoryError ->
  fpgrowth (basket df) min_support true = Ok fi ->
  association_rules fi MLift 1%Q = Ok rs ->
  rules apriori fpgrowth association_rules df = Ok rs
  /\ top_rules apriori fpgrowth association_rules df
     = Ok (firstn 10 (sort (fun a b => Qle_bool (lift b) (lift a)) rs)).
Proof.
  intros Ha Hf Hr.
  assert (H : rules apriori fpgrowth association_rules df = Ok rs).
  { unfold rules, frequent_itemsets. rewrite Ha, Hf. simpl. exact Hr. }
  split; [exact H|]. unfold top_rules. rewrite H. reflexivity.
Qed.

Lemma fallback_rules_come_from_fpgrowth_witness :
  let df := load_data Reference.to_datetime Sample.csv in
  exists fi rs,
    Reference.out_of_memory (basket df) min_support true = Raise MemoryError
    /\ Reference.mine (basket df) min_support true = Ok fi
    /\ Reference.derive_rules fi MLift 1%Q = Ok rs
    /\ rs <> []
    /\ rules Reference.out_of_memory Reference.mine Reference.derive_rules df = Ok rs
    /\ top_rules Reference.out_of_memory Reference.mine Reference.derive_rules df
       = Ok (firstn 10 (sort (fun a b => Qle_bool (lift b) (lift a)) rs)).
Proof.
  intros df. eexists. eexists.
  assert (Ha : Reference.out_of_memory (basket df) min_support true
               = Raise MemoryError) by reflexivity.
  split; [exact Ha|].
  split; [lazy; reflexivity|].
  split; [lazy; reflexivity|].
  split; [discriminate|].
  eapply (fallback_rules_come_from_fpgrowth
            Reference.out_of_memory Reference.mine Reference.derive_rules df _ _ Ha);
    lazy; reflexivity.
Defined.

(** ** Frequency and repeat purchases *)

Lemma rows_of_customer_group c df :
  get_group Z.eq_dec CustomerID c df = rows_of_customer c df.
Proof.
  unfold get_group, rows_of_customer. apply filter_ext. intros r.
  unfold has_key. destruct (CustomerID r) as [c'|]; [|reflexivity].
  destruct (Z.eq_dec c c') as [E|Hne].
  - subst. symmetry. apply Z.eqb_refl.
  - symmetry. apply Z.eqb_neq. congruence.
Qed.

Lemma count_map_notna {R A : Type} (f : R -> option A) (g : list R) :
  count (map f g) = List.length (filter (fun r => notna (f r)) g).
Proof.
  unfold count. induction g as [|r g IH]; simpl.
  - reflexivity.
  - destruct (f r); simpl; now rewrite <- IH.
Qed.

Lemma nodup_length_le {A : Type} (dec : forall x y : A, {x = y} + {x <> y}) l :
  (List.length (nodup dec l) <= List.length l)%nat.
Proof.
  induction l as [|a l IH]; simpl.
  - lia.
  - destruct (in_dec dec a l); simpl; lia.
Qed.

Lemma customer_is_group_key c df :
  In (Some c) (map CustomerID df) ->
  In c (group_keys Z.eq_dec Z.leb CustomerID df).
Proof.
  intros H. apply group_keys_In. apply in_map_iff in H.
  destruct H as (r & Hr & Hin). exists r. auto.
Qed.

(** C10 as stated fails. A record whose invoice-number field is empty
    survives cleaning; its customer has one transaction row and Frequency 0. *)
Lemma frequency_skips_rows_without_invoice :
  let df := load_data Reference.to_datetime Sample.csv_missing_invoice in
  List.length (rows_of_customer 17850 df) = 1%nat
  /\ option_map Frequency (series_get Z.eq_dec 17850 (rfm df)) = Some 0%nat.
Proof. intros df. split; vm_compute; reflexivity. Qed.

(** C10, amended. The Frequency of a customer is the number of the
    customer's transaction rows that carry an invoice identifier, which is
    the number of the customer's rows when no invoice identifier is missing;
    the retention view counts the customer's distinct invoice identifiers,
    which is never more. *)
Theorem frequency_counts_rows_with_invoice df c :
  In (Some c) (map CustomerID df) ->
  exists m,
    series_get Z.eq_dec c (rfm df) = Some m
    /\ Frequency m
       = List.length (filter (fun r => notna (InvoiceNo r)) (rows_of_customer c df))
    /\ (Forall (fun r => InvoiceNo r <> None) df ->
        Frequency m = List.length (rows_of_customer c df))
    /\ series_get Z.eq_dec c (repeat_customers df)
       = Some (List.length
                 (nodup string_dec (dropna (map InvoiceNo (rows_of_customer c df)))))
    /\ (List.length
          (nodup string_dec (dropna (map InvoiceNo (rows_of_customer c df))))
        <= Frequency m)%nat.
Proof.
  intros Hc. apply customer_is_group_key in Hc.
  unfold rfm, repeat_customers.
  rewrite !series_get_groupby.
  destruct (in_dec Z.eq_dec c (group_keys Z.eq_dec Z.leb CustomerID df))
    as [_|Hn]; [|contradiction].
  rewrite rows_of_customer_group.
  eexists. split; [reflexivity|]. simpl.
  split; [apply count_map_notna|].
  split; [|split; [reflexivity|]].
  - intros Hall. rewrite count_map_notna. f_equal.
    assert (Hs : Forall (fun r => InvoiceNo r <> None) (rows_of_customer c df)).
    { apply Forall_forall. intros r Hr. unfold rows_of_customer in Hr.
      apply filter_In in Hr. rewrite Forall_forall in Hall. apply Hall, Hr. }
    induction Hs as [|r g Hr _ IH]; simpl.
    + reflexivity.
    + destruct (InvoiceNo r); [|congruence]. simpl. now f_equal.
  - unfold count. apply nodup_length_le.
Qed.

Lemma frequency_counts_rows_with_invoice_witness :
  let df := load_data Reference.to_datetime Sample.csv in
  In (Some 17850) (map CustomerID df)
  /\ exists m,
       series_get Z.eq_dec 17850 (rfm df) = Some m
       /\ Frequency m
          = List.length (filter (fun r => notna (InvoiceNo r))
                                (rows_of_customer 17850 df))
       /\ (Forall (fun r => InvoiceNo r <> None) df ->
           Frequency m = List.length (rows_of_customer 17850 df))
       /\ series_get Z.eq_dec 17850 (repeat_customers df)
          = Some (List.length
                    (nodup string_dec
                       (dropna (map InvoiceNo (rows_of_customer 17850 df)))))
       /\ (List.length
             (nodup string_dec
                (dropna (map InvoiceNo (rows_of_customer 17850 df))))
           <= Frequency m)%nat.
Proof.
  intros df.
  assert (H : In (Some 17850) (map CustomerID df)) by (left; reflexivity).
  split; [exact H | exact (frequency_counts_rows_with_invoice df 17850 H)].
Defined.

(** Frequency and the number of distinct invoices differ: customer 17850
    of the sample file has three transaction rows in two invoices. *)
Lemma frequency_is_not_distinct_invoices :
  let df := load_data Reference.to_datetime Sample.csv in
  option_map Frequency (series_get Z.eq_dec 17850 (rfm df)) = Some 3%nat
  /\ series_get Z.eq_dec 17850 (repeat_customers df) = Some 2%nat.
Proof. intros df. split; vm_compute; reflexivity. Qed.

(** ** Product categories *)

Lemma find_none_Forall {A : Type} (f : A -> bool) l :
  find f l = None <-> Forall (fun x => f x = false) l.
Proof.
  induction l as [|a l IH]; simpl.
  - split; [constructor | reflexivity].
  - destruct (f a) eqn:E.
    + split; [discriminate|]. intros H. inversion H. congruence.
    + rewrite IH. split; intros H; [now constructor | now inversion H].
Qed.

Lemma OTHER_not_keyword : ~ In "OTHER" keywords.
Proof. simpl. intuition discriminate. Qed.

(** X1. [get_category] answers one of the six keywords or "OTHER"; it
    answers "OTHER" exactly when no keyword occurs in the upper-cased
    description, and otherwise a keyword that does occur in it. *)
Theorem get_category_range (desc : string) :
  In (get_category desc) ("OTHER" :: keywords)
  /\ (get_category desc = "OTHER"
      <-> Forall (fun k => contains k (upper desc) = false) keywords)
  /\ (get_category desc = "OTHER"
      \/ contains (get_category desc) (upper desc) = true).
Proof.
  unfold get_category.
  destruct (find (fun k => contains k (upper desc)) keywords) as [k|] eqn:E.
  - pose proof (find_some _ _ E) as [Hin Hk].
    split; [now right|]. split; [|now right].
    split.
    + intros ->. exfalso. now apply OTHER_not_keyword.
    + intros H. apply find_none_Forall in H. congruence.
  - split; [now left|]. split; [|now left].
    split; [intros _; now apply find_none_Forall | reflexivity].
Qed.

Lemma find_app_skip {A : Type} (f : A -> bool) l1 a l2 :
  Forall (fun x => f x = false) l1 -> f a = true ->
  find f (l1 ++ a :: l2) = Some a.
Proof.
  induction 1 as [|x l1 Hx _ IH]; simpl; intros Ha.
  - now rewrite Ha.
  - rewrite Hx. now apply IH.
Qed.

(** X2. The keywords are tried in the order of the list: a description is
    given the first keyword of the list that occurs in it, whatever other
    keywords occur later in the list. *)
Theorem get_category_first_keyword (desc : string) (before after : list string)
    (k : string) :
  keywords = (before ++ k :: after)%list ->
  Forall (fun k' => contains k' (upper desc) = false) before ->
  contains k (upper desc) = true ->
  get_category desc = k.
Proof.
  intros Hk Hb Hc. unfold get_category. rewrite Hk.
  now rewrite (find_app_skip _ before k after Hb Hc).
Qed.

Lemma get_category_first_keyword_witness :
  keywords = (["HOLDER"] ++ "SET" :: ["CUP"; "BOTTLE"; "LANTERN"; "HEART"])%list
  /\ Forall (fun k' => contains k' (upper "Heart tea set") = false) ["HOLDER"]
  /\ contains "SET" (upper "Heart tea set") = true
  /\ get_category "Heart tea set" = "SET".
Proof.
  assert (H1 : keywords
               = (["HOLDER"] ++ "SET" :: ["CUP"; "BOTTLE"; "LANTERN"; "HEART"])%list)
    by reflexivity.
  assert (H2 : Forall (fun k' => contains k' (upper "Heart tea set") = false)
                      ["HOLDER"]) by (repeat constructor).
  assert (H3 : contains "SET" (upper "Heart tea set") = true) by reflexivity.
  split; [exact H1|]. split; [exact H2|]. split; [exact H3|].
  exact (get_category_first_keyword "Heart tea set" ["HOLDER"]
           ["CUP"; "BOTTLE"; "LANTERN"; "HEART"] "SET" H1 H2 H3).
Defined.

Lemma string_app_assoc (a b c : string) : ((a ++ b) ++ c = a ++ (b ++ c))%string.
Proof. induction a as [|x a IH]; simpl; [reflexivity | now rewrite IH]. Qed.

Lemma upper_app (a b : string) : upper (a ++ b) = (upper a ++ upper b)%string.
Proof.
  induction a as [|c a IH]; simpl.
  - reflexivity.
  - now rewrite IH, string_app_assoc.
Qed.

Lemma upper_upper_char (c : ascii) : upper (upper_char c) = upper_char c.
Proof.
  destruct c as [[] [] [] [] [] [] [] []]; reflexivity.
Qed.

Lemma upper_idempotent (s : string) : upper (upper s) = upper s.
Proof.
  induction s as [|c s IH]; simpl.
  - reflexivity.
  - now rewrite upper_app, upper_upper_char, IH.
Qed.

(** X3. The category does not depend on the letter case of the
    description: a description and its upper-cased text get the same
    category. *)
Theorem get_category_ignores_case (desc : string) :
  get_category (upper desc) = get_category desc.
Proof. unfold get_category. now rewrite upper_idempotent. Qed.

(** ** The loader: a record without invoice number *)

(** X5. A record whose invoice-number field is empty is not taken for a
    cancellation (its text is "nan"): with a customer identifier and a
    quantity above zero it passes the three filters of the loader and
    reaches the date conversion; a record whose invoice number starts with
    'C' never does. *)
Theorem filters_keep_missing_invoice csv r :
  In r csv ->
  Raw.CustomerID r <> None ->
  (exists q, Raw.Quantity r = Some q /\ 0 < q) ->
  (Raw.InvoiceNo r = None ->
   In r (keep_positive_quantity (drop_cancellations (dropna_CustomerID csv))))
  /\ (forall i, Raw.InvoiceNo r = Some (String "C" i) ->
      ~ In r (keep_positive_quantity (drop_cancellations (dropna_CustomerID csv)))).
Proof.
  intros Hin Hc (q & Hq & Hpos).
  unfold keep_positive_quantity, drop_cancellations, dropna_CustomerID.
  split.
  - intros Hi. repeat (apply filter_In; split); try exact Hin.
    + destruct (Raw.CustomerID r); [reflexivity | congruence].
    + rewrite Hi. reflexivity.
    + rewrite Hq. simpl. now apply Z.ltb_lt.
  - intros i Hi H. apply filter_In in H. destruct H as [H _].
    apply filter_In in H. destruct H as [_ H]. rewrite Hi in H.
    destruct i; vm_compute in H; discriminate H.
Qed.

Lemma filters_keep_missing_invoice_witness :
  let r := hd (Sample.line "" "" "" 0 "" 0 0 "") Sample.csv_missing_invoice in
  In r Sample.csv_missing_invoice
  /\ Raw.CustomerID r <> None
  /\ (exists q, Raw.Quantity r = Some q /\ 0 < q)
  /\ Raw.InvoiceNo r = None
  /\ In r (keep_positive_quantity
             (drop_cancellations (dropna_CustomerID Sample.csv_missing_invoice))).
Proof.
  intros r.
  assert (H1 : In r Sample.csv_missing_invoice) by (left; reflexivity).
  assert (H2 : Raw.InvoiceNo r = None) by reflexivity.
  assert (H3 : Raw.CustomerID r <> None) by discriminate.
  assert (H4 : exists q, Raw.Quantity r = Some q /\ 0 < q)
    by (exists 6; split; [reflexivity | lia]).
  split; [exact H1|]. split; [exact H3|]. split; [exact H4|].
  split; [exact H2|].
  exact (proj1 (filters_keep_missing_invoice Sample.csv_missing_invoice r H1 H3 H4)
               H2).
Defined.

(** ** One row per customer *)

Lemma sort_length {A : Type} (leb : A -> A -> bool) l :
  List.length (sort leb l) = List.length l.
Proof. apply Permutation_length, sort_perm. Qed.

Lemma groupby_agg_length {R K V : Type}
    (K_dec : forall x y : K, {x = y} + {x <> y}) K_leb
    (key : R -> option K) (f : list R -> V) df :
  List.length (groupby_agg K_dec K_leb key f df) = nunique K_dec (map key df).
Proof.
  unfold groupby_agg, group_keys, nunique.
  now rewrite length_map, sort_length.
Qed.

(** X6. The segmentation table and the retention table have one row per
    customer: as many rows as the "Total Customers" card shows. *)
Theorem one_row_per_customer (df : DataFrame) :
  List.length (rfm df) = total_customers df
  /\ List.length (repeat_customers df) = total_customers df.
Proof.
  unfold rfm, repeat_customers, total_customers.
  split; apply groupby_agg_length.
Qed.

(** X7. On the frame the loader returns every record has a customer, so
    the customer groups behind the segmentation table partition the whole
    frame: the rows are labelled with distinct customers, every record
    belongs to the group of exactly one row, and the Monetary value of a
    row is the sum of the revenues of its group. *)
Theorem customers_partition_the_frame to_datetime csv :
  let df := load_data to_datetime csv in
  NoDup (map fst (rfm df))
  /\ (forall c m, In (c, m) (rfm df) ->
        Monetary m = sum_Q (map Revenue (get_group Z.eq_dec CustomerID c df)))
  /\ Permutation
       (List.concat (map (fun kv => get_group Z.eq_dec CustomerID (fst kv) df) (rfm df)))
       df.
Proof.
  intros df.
  destruct (groupby_agg_partition Z.eq_dec Z.leb CustomerID
              (fun g => {| Recency := recency (snapshot_date df) (map InvoiceDate g);
                           Frequency := count (map InvoiceNo g);
                           Monetary := sum_Q (map Revenue g);
                           Diversity := nunique string_dec (map Description g) |})
              (rfm df) df (Permutation_refl _))
    as (Hnd & Hval & Hparts).
  split; [exact Hnd|]. split.
  - intros c m Hin. rewrite (Hval c m Hin). reflexivity.
  - rewrite Hparts. rewrite filter_notna_all; [reflexivity|].
    eapply Forall_impl; [|apply (load_data_Forall_cleaned to_datetime csv)].
    intros r (Hc & _). exact Hc.
Qed.

(** ** Sorted tables *)

Section SortedFacts.

Context {A : Type} (leb : A -> A -> bool).
Hypothesis leb_total : forall a b, leb a b = true \/ leb b a = true.
Hypothesis leb_trans : forall a b c, leb a b = true -> leb b c = true -> leb a c = true.

Lemma insert_sorted_sorted x l :
  StronglySorted (fun a b => leb a b = true) l ->
  StronglySorted (fun a b => leb a b = true) (insert_sorted leb x l).
Proof.
  induction 1 as [|y l Hs IH Hy]; simpl.
  - repeat constructor.
  - destruct (leb x y) eqn:E.
    + constructor; [now constructor|].
      constructor; [exact E|].
      eapply Forall_impl; [|exact Hy]. intros z Hz. eapply leb_trans; eassumption.
    + constructor; [exact IH|].
      eapply Permutation_Forall; [symmetry; apply insert_sorted_perm|].
      constructor; [|exact Hy].
      destruct (leb_total x y) as [H|H]; [congruence | exact H].
Qed.

Lemma sort_sorted l : StronglySorted (fun a b => leb a b = true) (sort leb l).
Proof.
  induction l as [|x l IH]; simpl.
  - constructor.
  - now apply insert_sorted_sorted.
Qed.

(** In a sorted list, what [head(n)] keeps comes before what it leaves. *)
Lemma sorted_head_before_rest n l x y :
  StronglySorted (fun a b => leb a b = true) l ->
  In x (firstn n l) -> In y (skipn n l) -> leb x y = true.
Proof.
  intros Hs. revert n. induction Hs as [|a l Hs IH Ha]; intros n Hx Hy.
  - destruct n; simpl in Hx; contradiction.
  - destruct n as [|n]; simpl in Hx, Hy; [contradiction|].
    destruct Hx as [<-|Hx].
    + rewrite Forall_forall in Ha. apply Ha.
      rewrite <- (firstn_skipn n l). apply in_or_app. now right.
    + now apply (IH n).
Qed.

End SortedFacts.

Lemma Qle_bool_total a b : Qle_bool a b = true \/ Qle_bool b a = true.
Proof.
  rewrite !Qle_bool_iff. destruct (Qlt_le_dec a b) as [H|H].
  - left. now apply Qlt_le_weak.
  - now right.
Qed.

Lemma Qle_bool_trans a b c :
  Qle_bool a b = true -> Qle_bool b c = true -> Qle_bool a c = true.
Proof. rewrite !Qle_bool_iff. apply Qle_trans. Qed.

(** X8. The "Revenue by Country" table is in descending order of revenue
    and has exactly one row for every country that occurs in the frame. *)
Theorem country_sales_sorted (df : DataFrame) :
  StronglySorted (fun a b => (snd b <= snd a)%Q) (country_sales df)
  /\ NoDup (map fst (country_sales df))
  /\ forall c, In c (map fst (country_sales df)) <-> In (Some c) (map Country df).
Proof.
  unfold country_sales, sort_values_desc.
  set (s := groupby_agg string_dec String.leb Country
                        (fun g => sum_Q (map Revenue g)) df).
  set (leb := fun a b : string * Q => Qle_bool (snd b) (snd a)).
  assert (Hp : Permutation (map fst (sort leb s)) (map fst s))
    by (apply Permutation_map, sort_perm).
  assert (Hk : map fst s = group_keys string_dec String.leb Country df)
    by apply groupby_agg_keys.
  split; [|split].
  - assert (Hs : StronglySorted (fun a b => leb a b = true) (sort leb s)).
    { apply sort_sorted; unfold leb.
      - intros a b. apply Qle_bool_total.
      - intros a b c H1 H2. eapply Qle_bool_trans; eassumption. }
    clear -Hs. induction Hs as [|a l Hs IH Ha]; constructor; [exact IH|].
    eapply Forall_impl; [|exact Ha]. intros b Hb. now apply Qle_bool_iff.
  - eapply Permutation_NoDup; [symmetry; exact Hp|].
    rewrite Hk. apply group_keys_NoDup.
  - intros c. split; intros H.
    + apply (Permutation_in _ Hp) in H. rewrite Hk in H.
      apply group_keys_In in H. destruct H as (r & Hr & Hc).
      apply in_map_iff. exists r. auto.
    + apply (Permutation_in _ (Permutation_sym Hp)). rewrite Hk.
      apply group_keys_In. apply in_map_iff in H.
      destruct H as (r & Hc & Hr). exists r. auto.
Qed.

(** ** Top-n tables *)

Lemma head_of_sorted_is_top {K V : Type} (leb : V -> V -> bool) n
    (s : Series K V) (kv kv' : K * V) :
  (forall a b, leb a b = true \/ leb b a = true) ->
  (forall a b c, leb a b = true -> leb b c = true -> leb a c = true) ->
  In kv (firstn n (sort_values_desc leb s)) ->
  In kv' s ->
  ~ In kv' (firstn n (sort_values_desc leb s)) ->
  leb (snd kv') (snd kv) = true.
Proof.
  intros Htot Htrans Hkv Hin Hout. unfold sort_values_desc in *.
  set (leb' := fun a b : K * V => leb (snd b) (snd a)) in *.
  apply (sorted_head_before_rest leb' n (sort leb' s) kv kv').
  - apply sort_sorted; unfold leb'.
    + intros a b. apply Htot.
    + intros a b c H1 H2. eapply Htrans; eassumption.
  - exact Hkv.
  - assert (H : In kv' (sort leb' s)) by now apply sort_In.
    rewrite <- (firstn_skipn n (sort leb' s)) in H.
    apply in_app_or in H. destruct H; [contradiction | assumption].
Qed.

Lemma In_firstn {A : Type} n (l : list A) x : In x (firstn n l) -> In x l.
Proof.
  intros H. rewrite <- (firstn_skipn n l). apply in_or_app. now left.
Qed.

Lemma Z_leb_total a b : (a <=? b) = true \/ (b <=? a) = true.
Proof. rewrite !Z.leb_le. lia. Qed.

Lemma Z_leb_trans a b c : (a <=? b) = true -> (b <=? c) = true -> (a <=? c) = true.
Proof. rewrite !Z.leb_le. lia. Qed.

(** X9. Each "Top 10" chart of the sales view shows at most ten rows, all
    taken from the grouped totals, and no row left out has a larger total
    than a row shown. *)
Theorem top_10_tables_are_top (df : DataFrame) :
  ((List.length (top_products_qty df) <= 10)%nat
   /\ incl (top_products_qty df) (quantity_by_product df)
   /\ forall kv kv', In kv (top_products_qty df) ->
        In kv' (quantity_by_product df) -> ~ In kv' (top_products_qty df) ->
        snd kv' <= snd kv)
  /\ ((List.length (top_products_rev df) <= 10)%nat
      /\ incl (top_products_rev df) (revenue_by_product df)
      /\ forall kv kv', In kv (top_products_rev df) ->
           In kv' (revenue_by_product df) -> ~ In kv' (top_products_rev df) ->
           (snd kv' <= snd kv)%Q)
  /\ ((List.length (top_customers df) <= 10)%nat
      /\ incl (top_customers df) (revenue_by_customer df)
      /\ forall kv kv', In kv (top_customers df) ->
           In kv' (revenue_by_customer df) -> ~ In kv' (top_customers df) ->
           (snd kv' <= snd kv)%Q).
Proof.
  unfold top_products_qty, top_products_rev, top_customers.
  split; [|split];
    (split; [apply firstn_le_length|]);
    (split; [intros kv Hkv; apply In_firstn in Hkv;
             unfold sort_values_desc in Hkv; now apply sort_In in Hkv|]);
    intros kv kv' Hkv Hin Hout.
  - apply Z.leb_le.
    eapply (head_of_sorted_is_top Z.leb 10 _ kv kv' Z_leb_total Z_leb_trans);
      eassumption.
  - apply Qle_bool_iff.
    eapply (head_of_sorted_is_top Qle_bool 10 _ kv kv' Qle_bool_total Qle_bool_trans);
      eassumption.
  - apply Qle_bool_iff.
    eapply (head_of_sorted_is_top Qle_bool 10 _ kv kv' Qle_bool_total Qle_bool_trans);
      eassumption.
Qed.

(** ** The products of the basket matrix *)

Lemma NoDup_head {A : Type} n (l : list A) : NoDup l -> NoDup (firstn n l).
Proof.
  intros H. revert n. induction H as [|a l Ha Hl IH]; intros [|n]; simpl;
    try constructor.
  - intros Hin. apply Ha. eapply In_firstn. exact Hin.
  - apply IH.
Qed.

Lemma top_products_perm_keys df :
  Permutation
    (map fst (sort_values_desc Z.leb (quantity_by_product df)))
    (group_keys string_dec String.leb Description df).
Proof.
  unfold sort_values_desc, quantity_by_product.
  rewrite <- (groupby_agg_keys string_dec String.leb Description
                (fun g => sum_int64 (map Quantity g)) df).
  apply Permutation_map, sort_perm.
Qed.

Lemma top_products_head df :
  top_products df
  = firstn 500 (map fst (sort_values_desc Z.leb (quantity_by_product df))).
Proof. unfold top_products, quantity_by_product. now rewrite firstn_map. Qed.

(** X10. The products kept for the basket matrix are at most 500 distinct
    products of the frame, and no product left out has a larger total
    quantity than a product kept. *)
Theorem top_products_are_top (df : DataFrame) :
  (List.length (top_products df) <= 500)%nat
  /\ NoDup (top_products df)
  /\ (forall p, In p (top_products df) -> In (Some p) (map Description df))
  /\ (forall p q p' q',
        In (p, q) (quantity_by_product df) -> In (p', q') (quantity_by_product df) ->
        In p (top_products df) -> ~ In p' (top_products df) -> q' <= q).
Proof.
  pose proof (top_products_perm_keys df) as Hp.
  assert (Hnd : NoDup (map fst (sort_values_desc Z.leb (quantity_by_product df)))).
  { eapply Permutation_NoDup; [symmetry; exact Hp | apply group_keys_NoDup]. }
  split; [|split; [|split]].
  - rewrite top_products_head. apply firstn_le_length.
  - rewrite top_products_head. now apply NoDup_head.
  - intros p H. rewrite top_products_head in H. apply In_firstn in H.
    apply (Permutation_in _ Hp) in H. apply group_keys_In in H.
    destruct H as (r & Hr & Hd). apply in_map_iff. exists r. auto.
  - intros p q p' q' Hq Hq' Hin Hout.
    unfold top_products in Hin, Hout. fold (quantity_by_product df) in Hin, Hout.
    apply in_map_iff in Hin. destruct Hin as ((p0 & q0) & Hp0 & Hin).
    simpl in Hp0. subst p0.
    assert (q0 = q).
    { apply In_firstn in Hin. unfold sort_values_desc in Hin. apply sort_In in Hin.
      assert (Hk : NoDup (map fst (quantity_by_product df))).
      { unfold quantity_by_product. rewrite groupby_agg_keys.
        apply group_keys_NoDup. }
      clear -Hin Hq Hk. induction (quantity_by_product df) as [|[k v] s IH].
      - contradiction.
      - simpl in Hk. inversion Hk as [|? ? Hn Hk']; subst.
        destruct Hin as [E|Hin], Hq as [E'|Hq].
        + congruence.
        + inversion E; subst. exfalso. apply Hn.
          apply in_map_iff. exists (p, q). auto.
        + inversion E'; subst. exfalso. apply Hn.
          apply in_map_iff. exists (p, q0). auto.
        + now apply IH. }
    subst q0. apply Z.leb_le.
    apply (head_of_sorted_is_top Z.leb 500 (quantity_by_product df) (p, q) (p', q')
             Z_leb_total Z_leb_trans Hin Hq').
    intros H. apply Hout. apply in_map_iff. exists (p', q'). auto.
Qed.

Lemma top_products_all df p :
  (nunique string_dec (map Description df) <= 500)%nat ->
  In p (top_products df) <-> In (Some p) (map Description df).
Proof.
  intros Hn. pose proof (top_products_perm_keys df) as Hp.
  rewrite top_products_head, firstn_all2.
  - split; intros H.
    + apply (Permutation_in _ Hp) in H. apply group_keys_In in H.
      destruct H as (r & Hr & Hd). apply in_map_iff. exists r. auto.
    + apply (Permutation_in _ (Permutation_sym Hp)). apply group_keys_In.
      apply in_map_iff in H. destruct H as (r & Hd & Hr). exists r. auto.
  - rewrite (Permutation_length Hp). unfold group_keys.
    rewrite sort_length. exact Hn.
Qed.

(** ** The basket matrix: entries, rows and columns *)

Lemma wrap_int64_small z : - 2 ^ 63 <= z < 2 ^ 63 -> wrap_int64 z = z.
Proof. intros H. unfold wrap_int64. rewrite Z.mod_small; lia. Qed.

(** Without overflow, a non-empty group of cleaned records has a positive
    total quantity. *)
Lemma sum_int64_cleaned_pos g :
  Forall cleaned g -> g <> [] -> sum_Z (map Quantity g) < 2 ^ 63 ->
  0 < sum_int64 (map Quantity g).
Proof.
  intros Hc Hne Hsmall. pose proof (sum_Z_cleaned_pos g Hc Hne) as Hpos.
  unfold sum_int64. rewrite wrap_int64_small; lia.
Qed.

(** The records of an invoice and a top product are all in [df_small]. *)
Lemma get_group_isin top i p (l : DataFrame) :
  In p top ->
  get_group pair_dec invoice_product (i, p)
            (filter (fun r => isin (Description r) top) l)
  = get_group pair_dec invoice_product (i, p) l.
Proof.
  intros Htop. unfold get_group. induction l as [|r l IH]; simpl.
  - reflexivity.
  - destruct (isin (Description r) top) eqn:E; simpl.
    + now rewrite IH.
    + rewrite IH.
      destruct (has_key pair_dec (i, p) (invoice_product r)) eqn:Hk;
        [|reflexivity].
      exfalso. apply has_key_true in Hk. apply invoice_product_Some in Hk.
      destruct Hk as [_ Hp]. unfold isin in E. rewrite Hp in E.
      destruct (in_dec string_dec p top); [discriminate | contradiction].
Qed.

Lemma get_group_df_small df i p :
  In p (top_products df) ->
  get_group pair_dec invoice_product (i, p) (df_small df)
  = get_group pair_dec invoice_product (i, p) df.
Proof. intros H. unfold df_small. cbv zeta. now apply get_group_isin. Qed.

(** The labelled pairs of the pivoted series. *)
Lemma invoice_product_quantity_keys df k :
  In k (map fst (invoice_product_quantity (df_small df))) <->
  exists r, In r (df_small df) /\ invoice_product r = Some k.
Proof.
  unfold invoice_product_quantity. rewrite groupby_agg_keys.
  apply group_keys_In.
Qed.

Lemma basket_index df i :
  In i (index (basket df)) <->
  exists r p, In r df /\ InvoiceNo r = Some i /\ Description r = Some p
              /\ In p (top_products df).
Proof.
  unfold basket, unstack_positive; simpl.
  rewrite sort_In, nodup_In, in_map_iff. split.
  - intros (((i0 & p) & v) & Hi & Hin). simpl in Hi. subst i0.
    assert (Hk : In (i, p) (map fst (invoice_product_quantity (df_small df)))).
    { apply in_map_iff. exists ((i, p), v). auto. }
    apply invoice_product_quantity_keys in Hk. destruct Hk as (r & Hr & Hk).
    apply invoice_product_Some in Hk. destruct Hk as [Hi Hp].
    apply df_small_In in Hr. destruct Hr as (Hr & p' & Hp' & Htop).
    assert (p' = p) by congruence. subst p'.
    exists r, p. auto.
  - intros (r & p & Hr & Hi & Hp & Htop).
    assert (Hk : In (i, p) (map fst (invoice_product_quantity (df_small df)))).
    { apply invoice_product_quantity_keys. exists r. split.
      - apply df_small_In. split; [exact Hr|]. exists p. auto.
      - apply invoice_product_Some. auto. }
    apply in_map_iff in Hk. destruct Hk as (kv & Hkv & Hin).
    exists kv. split; [now rewrite Hkv | exact Hin].
Qed.

Lemma basket_columns df p :
  In p (columns (basket df)) <->
  In p (top_products df)
  /\ exists r i, In r df /\ InvoiceNo r = Some i /\ Description r = Some p.
Proof.
  unfold basket, unstack_positive; simpl.
  rewrite sort_In, nodup_In, in_map_iff. split.
  - intros (((i & p0) & v) & Hp & Hin). simpl in Hp. subst p0.
    assert (Hk : In (i, p) (map fst (invoice_product_quantity (df_small df)))).
    { apply in_map_iff. exists ((i, p), v). auto. }
    apply invoice_product_quantity_keys in Hk. destruct Hk as (r & Hr & Hk).
    apply invoice_product_Some in Hk. destruct Hk as [Hi Hp].
    apply df_small_In in Hr. destruct Hr as (Hr & p' & Hp' & Htop).
    assert (p' = p) by congruence. subst p'.
    split; [exact Htop|]. exists r, i. auto.
  - intros (Htop & r & i & Hr & Hi & Hp).
    assert (Hk : In (i, p) (map fst (invoice_product_quantity (df_small df)))).
    { apply invoice_product_quantity_keys. exists r. split.
      - apply df_small_In. split; [exact Hr|]. exists p. auto.
      - apply invoice_product_Some. auto. }
    apply in_map_iff in Hk. destruct Hk as (kv & Hkv & Hin).
    exists kv. split; [now rewrite Hkv | exact Hin].
Qed.

(** The true entries: the pair has a group and the int64 sum of its
    quantities is positive. *)
Lemma basket_at_true df i p :
  basket_at (basket df) i p = Some true <->
  In p (top_products df)
  /\ (exists r, In r df /\ InvoiceNo r = Some i /\ Description r = Some p)
  /\ 0 < sum_int64 (map Quantity (get_group pair_dec invoice_product (i, p) df)).
Proof.
  unfold basket at 1. rewrite basket_at_unstack. fold (basket df).
  set (s := invoice_product_quantity (df_small df)).
  assert (Hget : series_get pair_dec (i, p) s
                 = if in_dec pair_dec (i, p)
                        (group_keys pair_dec pair_leb invoice_product (df_small df))
                   then Some (sum_int64 (map Quantity
                          (get_group pair_dec invoice_product (i, p) (df_small df))))
                   else None).
  { unfold s, invoice_product_quantity.
    apply (series_get_groupby pair_dec pair_leb invoice_product
             (fun g => sum_int64 (map Quantity g))). }
  rewrite Hget. split.
  - intros (_ & Hcol & Hb).
    apply basket_columns in Hcol. destruct Hcol as [Htop _].
    destruct (in_dec pair_dec (i, p) _) as [Hin|_]; [|discriminate].
    apply group_keys_In in Hin. destruct Hin as (r & Hr & Hk).
    apply invoice_product_Some in Hk. destruct Hk as [Hi Hp].
    apply df_small_In in Hr. destruct Hr as [Hr _].
    split; [exact Htop|]. split; [exists r; auto|].
    rewrite <- (get_group_df_small df i p Htop). apply Z.ltb_lt. now symmetry.
  - intros (Htop & (r & Hr & Hi & Hp) & Hpos).
    split; [apply basket_index; exists r, p; auto|].
    split; [apply basket_columns; split; [exact Htop | exists r, i; auto]|].
    destruct (in_dec pair_dec (i, p) _) as [_|Hn].
    + rewrite (get_group_df_small df i p Htop). symmetry. now apply Z.ltb_lt.
    + exfalso. apply Hn. apply group_keys_In. exists r. split.
      * apply df_small_In. split; [exact Hr|]. exists p. auto.
      * apply invoice_product_Some. auto.
Qed.

Lemma basket_columns_NoDup df : NoDup (columns (basket df)).
Proof. unfold basket, unstack_positive; simpl. apply sort_NoDup, NoDup_nodup. Qed.

Lemma basket_index_NoDup df : NoDup (index (basket df)).
Proof. unfold basket, unstack_positive; simpl. apply sort_NoDup, NoDup_nodup. Qed.

Lemma basket_at_None df i p :
  basket_at (basket df) i p = None <->
  ~ In i (index (basket df)) \/ ~ In p (columns (basket df)).
Proof.
  unfold basket. set (s := invoice_product_quantity (df_small df)). split.
  - intros Hnone.
    destruct (in_dec string_dec i (index (unstack_positive s))) as [Hi|Hi];
      [|now left].
    destruct (in_dec string_dec p (columns (unstack_positive s))) as [Hp|Hp];
      [|now right].
    exfalso.
    assert (H : basket_at (unstack_positive s) i p
                = Some match series_get pair_dec (i, p) s with
                       | Some v => 0 <? v
                       | None => false
                       end)
      by (apply basket_at_unstack; auto).
    congruence.
  - intros Hout.
    destruct (basket_at (unstack_positive s) i p) as [v|] eqn:E; [|reflexivity].
    apply basket_at_unstack in E. destruct E as (Hi & Hp & _).
    destruct Hout; contradiction.
Qed.

Lemma top_products_length df : (List.length (top_products df) <= 500)%nat.
Proof. rewrite top_products_head. apply firstn_le_length. Qed.

(** The records of an invoice and a product, in a cleaned frame. *)
Lemma cleaned_line_group df i p :
  Forall cleaned df ->
  (exists r, In r df /\ InvoiceNo r = Some i /\ Description r = Some p) ->
  Forall cleaned (get_group pair_dec invoice_product (i, p) df)
  /\ get_group pair_dec invoice_product (i, p) df <> [].
Proof.
  intros Hc (r & Hr & Hi & Hp). split.
  - apply Forall_forall. intros r' Hr'. apply get_group_In in Hr'.
    rewrite Forall_forall in Hc. apply Hc. tauto.
  - intros Hnil.
    assert (Hg : In r (get_group pair_dec invoice_product (i, p) df)).
    { apply get_group_In. split; [exact Hr|]. apply invoice_product_Some. auto. }
    rewrite Hnil in Hg. contradiction.
Qed.

(** C8, amended. In the basket matrix of the frame the loader returns:
    a true entry means that the product is one of the top products by total
    quantity and that a record of the invoice has the product, with
    positive quantity; conversely the entry of a top product bought in the
    invoice is true when the quantities of those records add up to less
    than 2^63 (the int64 sum wraps around above).  There are at most 500
    top products and at most 500 columns; a product outside the top
    products has no column, so none of its entries can be read; and when
    the frame has at most 500 distinct products every product of the frame
    is a top product. *)
Theorem basket_entry_true_iff to_datetime csv i p :
  let df := load_data to_datetime csv in
  let bought :=
    exists r, In r df /\ InvoiceNo r = Some i /\ Description r = Some p
              /\ exists q, Quantity r = Some q /\ 0 < q in
  (basket_at (basket df) i p = Some true -> In p (top_products df) /\ bought)
  /\ (sum_Z (map Quantity (get_group pair_dec invoice_product (i, p) df)) < 2 ^ 63 ->
      In p (top_products df) -> bought ->
      basket_at (basket df) i p = Some true)
  /\ (List.length (top_products df) <= 500)%nat
  /\ (List.length (columns (basket df)) <= 500)%nat
  /\ (~ In p (top_products df) ->
      ~ In p (columns (basket df)) /\ basket_at (basket df) i p = None)
  /\ ((nunique string_dec (map Description df) <= 500)%nat ->
      In (Some p) (map Description df) -> In p (top_products df)).
Proof.
  intros df bought.
  pose proof (load_data_Forall_cleaned to_datetime csv) as Hc. fold df in Hc.
  split; [|split; [|split; [|split; [|split]]]].
  - intros H. apply basket_at_true in H. destruct H as (Htop & (r & Hr & Hi & Hp) & _).
    split; [exact Htop|]. exists r. repeat split; auto.
    rewrite Forall_forall in Hc. destruct (Hc r Hr) as (_ & Hq & _). exact Hq.
  - intros Hsmall Htop (r & Hr & Hi & Hp & _).
    apply basket_at_true. split; [exact Htop|].
    assert (Hline : exists r, In r df /\ InvoiceNo r = Some i /\ Description r = Some p)
      by (exists r; auto).
    split; [exact Hline|].
    destruct (cleaned_line_group df i p Hc Hline) as [Hg Hne].
    now apply sum_int64_cleaned_pos.
  - apply top_products_length.
  - transitivity (List.length (top_products df)); [|apply top_products_length].
    apply NoDup_incl_length; [apply basket_columns_NoDup|].
    intros p' Hp'. apply basket_columns in Hp'. tauto.
  - intros Hout.
    assert (Hcol : ~ In p (columns (basket df))).
    { intros Hp. apply basket_columns in Hp. tauto. }
    split; [exact Hcol|]. apply basket_at_None. now right.
  - intros Hn Hp. now apply top_products_all.
Qed.

(** C8 as stated fails. In a file with 501 products in one invoice, the
    product with the smallest total quantity is bought in that invoice with
    positive quantity, yet its basket entry is not true: it is not among
    the 500 top products and has no column. *)
Lemma basket_omits_product_outside_top_500 :
  let df := load_data Reference.to_datetime Sample.csv_501_products in
  (exists r, In r df /\ InvoiceNo r = Some "536365" /\ Description r = Some "P0"
             /\ exists q, Quantity r = Some q /\ 0 < q)
  /\ basket_at (basket df) "536365" "P0" <> Some true.
Proof.
  intros df. split.
  - exists (with_date_and_revenue Reference.to_datetime
              (Sample.line "536365" "85123A" "P0" 1 "12/1/2010 8:26" 2.55 17850
                           "United Kingdom")).
    split.
    + apply load_data_In. eexists. split; [reflexivity|]. split.
      * unfold Sample.csv_501_products. apply in_map_iff. exists 0%nat.
        split; [reflexivity | apply in_seq; lia].
      * repeat split.
    + split; [reflexivity|]. split; [reflexivity|].
      exists 1. split; [reflexivity | lia].
  - intros H.
    apply (basket_at_true df) in H.
    destruct H as [Htop _].
    assert (Hno : existsb (String.eqb "P0") (top_products df) = false)
      by (vm_compute; reflexivity).
    assert (Hyes : existsb (String.eqb "P0") (top_products df) = true).
    { apply existsb_exists. exists "P0". split; [exact Htop | apply String.eqb_refl]. }
    rewrite Hyes in Hno. discriminate Hno.
Qed.

(** The bound on the quantities cannot be dropped.  Two records of one
    invoice and one product with 2^62 pieces each add up to 2^63, which
    wraps around to -2^63: the product is a top product bought in the
    invoice and its entry is false. *)
Lemma basket_entry_false_on_int64_overflow :
  let df := load_data Reference.to_datetime Sample.csv_overflow in
  In "P0" (top_products df)
  /\ (exists r, In r df /\ InvoiceNo r = Some "536365" /\ Description r = Some "P0"
                /\ exists q, Quantity r = Some q /\ 0 < q)
  /\ basket_at (basket df) "536365" "P0" = Some false.
Proof.
  intros df. split; [|split].
  - vm_compute. now left.
  - exists (with_date_and_revenue Reference.to_datetime
              (Sample.line "536365" "85123A" "P0" (2 ^ 62) "12/1/2010 8:26" 2.55
                           17850 "United Kingdom")).
    split; [left; reflexivity|].
    split; [reflexivity|]. split; [reflexivity|].
    exists (2 ^ 62). split; [reflexivity | reflexivity].
  - vm_compute. reflexivity.
Qed.

(** X11. When the frame the loader returns has at most 500 distinct
    products, the basket matrix covers all of them: as long as the
    quantities of the records of an invoice and a product add up to less
    than 2^63, the entry is true exactly when a record of that invoice has
    that product. *)
Theorem basket_entry_small_catalog to_datetime csv i p :
  let df := load_data to_datetime csv in
  (nunique string_dec (map Description df) <= 500)%nat ->
  sum_Z (map Quantity (get_group pair_dec invoice_product (i, p) df)) < 2 ^ 63 ->
  (basket_at (basket df) i p = Some true
   <-> exists r, In r df /\ InvoiceNo r = Some i /\ Description r = Some p).
Proof.
  intros df Hn Hsmall.
  pose proof (load_data_Forall_cleaned to_datetime csv) as Hc. fold df in Hc.
  rewrite basket_at_true. split.
  - intros (_ & H & _). exact H.
  - intros Hline. destruct Hline as (r & Hr & Hi & Hp).
    assert (Hline : exists r, In r df /\ InvoiceNo r = Some i /\ Description r = Some p)
      by (exists r; auto).
    split; [|split; [exact Hline|]].
    + apply (top_products_all df p Hn). apply in_map_iff. exists r. auto.
    + destruct (cleaned_line_group df i p Hc Hline) as [Hg Hne].
      now apply sum_int64_cleaned_pos.
Qed.

Lemma basket_entry_small_catalog_witness :
  let df := load_data Reference.to_datetime Sample.csv in
  (nunique string_dec (map Description df) <= 500)%nat
  /\ sum_Z (map Quantity
              (get_group pair_dec invoice_product
                         ("536365", "WHITE METAL LANTERN") df)) < 2 ^ 63
  /\ (basket_at (basket df) "536365" "WHITE METAL LANTERN" = Some true
      <-> exists r, In r df /\ InvoiceNo r = Some "536365"
                    /\ Description r = Some "WHITE METAL LANTERN").
Proof.
  intros df.
  assert (H : (nunique string_dec (map Description df) <= 500)%nat)
    by (vm_compute; repeat constructor).
  assert (H' : sum_Z (map Quantity
                        (get_group pair_dec invoice_product
                                   ("536365", "WHITE METAL LANTERN") df)) < 2 ^ 63)
    by (vm_compute; reflexivity).
  split; [exact H|]. split; [exact H'|].
  exact (basket_entry_small_catalog Reference.to_datetime Sample.csv
           "536365" "WHITE METAL LANTERN" H H').
Defined.

(** X12. The rows of the basket matrix are the invoices with a record of a
    top product and its columns the top products with a record that has an
    invoice number, each label once: an invoice of other products only has
    no row, and a product sold only on records without invoice number has
    no column.  An entry can be read exactly when both labels are there. *)
Theorem basket_rows_and_columns (df : DataFrame) (i p : string) :
  (In i (index (basket df)) <->
   exists r q, In r df /\ InvoiceNo r = Some i /\ Description r = Some q
               /\ In q (top_products df))
  /\ (In p (columns (basket df)) <->
      In p (top_products df)
      /\ exists r j, In r df /\ InvoiceNo r = Some j /\ Description r = Some p)
  /\ NoDup (index (basket df))
  /\ NoDup (columns (basket df))
  /\ (basket_at (basket df) i p = None <->
      ~ In i (index (basket df)) \/ ~ In p (columns (basket df))).
Proof.
  split; [apply basket_index|]. split; [apply basket_columns|].
  split; [apply basket_index_NoDup|]. split; [apply basket_columns_NoDup|].
  apply basket_at_None.
Qed.

(** ** Revenue by category *)

Lemma get_category_In desc : In (get_category desc) ("OTHER" :: keywords).
Proof.
  unfold get_category.
  destruct (find (fun k => contains k (upper desc)) keywords) as [k|] eqn:E.
  - right. now apply (find_some _ _ E).
  - now left.
Qed.

(** X13. Every record has a category (a record without description is
    "OTHER"), so the category groups partition the whole frame, whatever
    the frame: the "Revenue by Category" table has at most seven rows,
    labelled with distinct categories among the six keywords and "OTHER",
    every record belongs to the group of exactly one row, and a row holds
    the sum of the revenues of its group. *)
Theorem categories_partition_the_frame (df : DataFrame) :
  let Category := fun r => Some (get_category (astype_str (Description r))) in
  (List.length (category_revenue df) <= 7)%nat
  /\ NoDup (map fst (category_revenue df))
  /\ incl (map fst (category_revenue df)) ("OTHER" :: keywords)
  /\ (forall k v, In (k, v) (category_revenue df) ->
        v = sum_Q (map Revenue (get_group string_dec Category k df)))
  /\ Permutation
       (List.concat (map (fun kv => get_group string_dec Category (fst kv) df)
                         (category_revenue df)))
       df.
Proof.
  intros Category.
  destruct (groupby_agg_partition string_dec String.leb Category
              (fun g => sum_Q (map Revenue g)) (category_revenue df) df)
    as (Hnd & Hval & Hparts).
  { unfold category_revenue, sort_values_desc. apply sort_perm. }
  assert (Hincl : incl (map fst (category_revenue df)) ("OTHER" :: keywords)).
  { intros k Hk. unfold category_revenue, sort_values_desc in Hk.
    apply in_map_iff in Hk. destruct Hk as ((k' & v) & E & Hin).
    simpl in E. subst k'. apply sort_In in Hin. apply In_groupby_agg in Hin.
    destruct Hin as [_ Hin]. apply group_keys_In in Hin.
    destruct Hin as (r & _ & Hr). inversion Hr. apply get_category_In. }
  split; [|split; [exact Hnd | split; [exact Hincl | split; [exact Hval|]]]].
  - rewrite <- (length_map fst).
    change 7%nat with (List.length ("OTHER" :: keywords)).
    now apply NoDup_incl_length.
  - rewrite Hparts. rewrite filter_notna_all; [reflexivity|].
    apply Forall_forall. intros r _. discriminate.
Qed.

(** ** Repeat-purchase rate *)

Lemma dropna_nil_iff {A : Type} (col : list (option A)) :
  dropna col = [] <-> Forall (fun x => x = None) col.
Proof.
  induction col as [|[a|] col IH]; simpl.
  - split; [constructor | reflexivity].
  - split; [discriminate|]. intros H. inversion H. discriminate.
  - rewrite IH. split; intros H; [now constructor | now inversion H].
Qed.

Lemma dropna_map_nil_iff {R A : Type} (f : R -> option A) (l : list R) :
  dropna (map f l) = [] <-> Forall (fun r => f r = None) l.
Proof.
  rewrite dropna_nil_iff. split; intros H.
  - induction l as [|r l IH]; [constructor|].
    simpl in H. inversion H; subst. constructor; auto.
  - induction H; simpl; constructor; auto.
Qed.

Lemma nodup_nil_iff {A : Type} (dec : forall x y : A, {x = y} + {x <> y}) l :
  nodup dec l = [] <-> l = [].
Proof.
  split; [|intros ->; reflexivity].
  destruct l as [|a l]; [reflexivity|]. intros H. exfalso.
  assert (Hin : In a (nodup dec (a :: l))) by (apply nodup_In; now left).
  rewrite H in Hin. contradiction.
Qed.

(** X14. The repeat-purchase rate is undefined (NaN) exactly when no
    record has a customer; otherwise it is a percentage between 0 and 100. *)
Theorem repeat_rate_is_a_percentage (df : DataFrame) :
  (repeat_rate df = None <-> Forall (fun r => CustomerID r = None) df)
  /\ forall x, repeat_rate df = Some x -> (0 <= x /\ x <= 100)%Q.
Proof.
  unfold repeat_rate.
  assert (Hlen : List.length (repeat_customers df)
                 = List.length (nodup Z.eq_dec (dropna (map CustomerID df)))).
  { unfold repeat_customers. apply groupby_agg_length. }
  assert (Hk : (List.length (filter (fun kv => (1 <? snd kv)%nat) (repeat_customers df))
                <= List.length (nodup Z.eq_dec (dropna (map CustomerID df))))%nat).
  { rewrite <- Hlen. apply filter_length_le. }
  rewrite Hlen. clear Hlen.
  set (k := List.length (filter (fun kv => (1 <? snd kv)%nat) (repeat_customers df)))
    in *.
  destruct (List.length (nodup Z.eq_dec (dropna (map CustomerID df))))
    as [|n] eqn:E.
  - split.
    + split; [intros _|reflexivity].
      apply length_zero_iff_nil, nodup_nil_iff in E.
      apply dropna_map_nil_iff in E. exact E.
    + discriminate.
  - split.
    + split; [discriminate|]. intros H. exfalso.
      apply dropna_map_nil_iff in H.
      rewrite H in E. discriminate E.
    + intros x H. inversion H as [Hx]. clear H Hx.
      assert (Hn : (0 < inject_Z (Z.of_nat (S n)))%Q).
      { change 0%Q with (inject_Z 0). rewrite <- Zlt_Qlt. lia. }
      assert (H0 : (0 <= inject_Z (Z.of_nat k) / inject_Z (Z.of_nat (S n)))%Q).
      { apply Qle_shift_div_l; [exact Hn|]. rewrite Qmult_0_l.
        change 0%Q with (inject_Z 0). rewrite <- Zle_Qle. lia. }
      assert (H1 : (inject_Z (Z.of_nat k) / inject_Z (Z.of_nat (S n)) <= 1)%Q).
      { apply Qle_shift_div_r; [exact Hn|]. rewrite Qmult_1_l.
        rewrite <- Zle_Qle. lia. }
      split.
      * apply Qmult_le_0_compat; [exact H0 | discriminate].
      * setoid_replace 100%Q with (1 * 100)%Q at 2 by reflexivity.
        apply Qmult_le_compat_r; [exact H1 | discriminate].
Qed.

(** ** Recency *)

Lemma max_time_spec col :
  match max_time col with
  | Some m => In (Some m) col
              /\ forall t, In (Some t) col -> to_seconds t <= to_seconds m
  | None => forall t, ~ In (Some t) col
  end.
Proof.
  unfold max_time. induction col as [|[t|] col IH]; simpl.
  - intros t H. exact H.
  - destruct (fold_right _ None (dropna col)) as [m|].
    + destruct IH as [Hin Hmax].
      destruct (to_seconds m <? to_seconds t) eqn:E.
      * apply Z.ltb_lt in E. split; [now left|].
        intros t' [H|H]; [inversion H; lia|]. specialize (Hmax t' H). lia.
      * apply Z.ltb_ge in E. split; [now right|].
        intros t' [H|H]; [inversion H; subst; lia|]. now apply Hmax.
    + split; [now left|].
      intros t' [H|H]; [inversion H; lia|]. exfalso. now apply (IH t').
  - destruct (fold_right _ None (dropna col)) as [m|].
    + destruct IH as [Hin Hmax]. split; [now right|].
      intros t' [H|H]; [discriminate | now apply Hmax].
    + intros t' [H|H]; [discriminate | now apply (IH t')].
Qed.

(** X15. The Recency of a customer is at least one day, because the
    snapshot date is one day after the latest invoice date of the frame; it
    is missing only for a customer none of whose records has a date. *)
Theorem recency_at_least_one_day (df : DataFrame) (c : Z) (m : RFM) :
  series_get Z.eq_dec c (rfm df) = Some m ->
  match Recency m with
  | Some d => 1 <= d
  | None => forall r, In r (rows_of_customer c df) -> InvoiceDate r = None
  end.
Proof.
  unfold rfm. rewrite series_get_groupby.
  destruct (in_dec Z.eq_dec c _) as [_|_]; [|discriminate].
  intros H. inversion H as [Hm]. clear H Hm. simpl.
  rewrite rows_of_customer_group.
  unfold recency, snapshot_date.
  pose proof (max_time_spec (map InvoiceDate df)) as Hall.
  pose proof (max_time_spec (map InvoiceDate (rows_of_customer c df))) as Hgrp.
  destruct (max_time (map InvoiceDate (rows_of_customer c df))) as [mg|].
  - destruct Hgrp as [Hin _].
    assert (Hdf : In (Some mg) (map InvoiceDate df)).
    { apply in_map_iff in Hin. destruct Hin as (r & Hr & Hin).
      apply in_map_iff. exists r. split; [exact Hr|].
      unfold rows_of_customer in Hin. now apply filter_In in Hin. }
    destruct (max_time (map InvoiceDate df)) as [M|]; simpl.
    + destruct Hall as [_ Hmax]. specialize (Hmax mg Hdf).
      unfold timedelta_days, add_days.
      apply Z.div_le_lower_bound; lia.
    + exfalso. now apply (Hall mg).
  - assert (Hnone : forall r, In r (rows_of_customer c df) -> InvoiceDate r = None).
    { intros r Hr. destruct (InvoiceDate r) as [t|] eqn:E; [|reflexivity].
      exfalso. apply (Hgrp t). apply in_map_iff. exists r. auto. }
    destruct (option_map _ (max_time (map InvoiceDate df))); exact Hnone.
Qed.

Lemma recency_at_least_one_day_witness :
  let df := load_data Reference.to_datetime Sample.csv in
  exists m,
    series_get Z.eq_dec 17850 (rfm df) = Some m
    /\ Recency m = Some 2
    /\ match Recency m with
       | Some d => 1 <= d
       | None => forall r, In r (rows_of_customer 17850 df) -> InvoiceDate r = None
       end.
Proof.
  intros df. eexists.
  assert (H : series_get Z.eq_dec 17850 (rfm df) = Some _) by (lazy; reflexivity).
  split; [exact H|]. split; [reflexivity|].
  exact (recency_at_least_one_day df 17850 _ H).
Defined.

(** ** Growth series *)

Lemma shift_length {A : Type} k (v : list A) :
  List.length (shift k v) = List.length v.
Proof.
  unfold shift. rewrite length_firstn, length_app, repeat_length, length_map. lia.
Qed.

Lemma shift_head_missing {A : Type} k (v : list A) x :
  In x (firstn k (shift k v)) -> x = None.
Proof.
  unfold shift. rewrite firstn_firstn, firstn_app, repeat_length.
  replace (Nat.min k (List.length v) - k)%nat with 0%nat by lia.
  rewrite firstn_0, app_nil_r. intros H. apply In_firstn in H.
  now apply repeat_spec in H.
Qed.

Lemma map_fst_combine {A B : Type} (a : list A) (b : list B) :
  List.length a = List.length b -> map fst (combine a b) = a.
Proof.
  revert b. induction a as [|x a IH]; intros [|y b] H; simpl in *;
    try reflexivity; try discriminate.
  f_equal. apply IH. lia.
Qed.

Lemma pct_change_labels {K : Type} k (s : Series K Q) :
  map fst (pct_change k s) = map fst s.
Proof.
  unfold pct_change. apply map_fst_combine.
  rewrite !length_map, length_combine, shift_length, !length_map. lia.
Qed.

Lemma pct_change_head_nan {K : Type} k (s : Series K Q) kv :
  In kv (firstn k (pct_change k s)) -> snd kv = NotANumber.
Proof.
  unfold pct_change. rewrite combine_firstn. destruct kv as [m c]. intros H.
  apply in_combine_r in H. rewrite firstn_map in H.
  apply in_map_iff in H. destruct H as ([prev cur] & <- & H).
  rewrite combine_firstn in H. apply in_combine_l in H.
  apply shift_head_missing in H. simpl in *. now subst.
Qed.

Lemma dropna_changes_skips_head {K : Type} k (s : Series K Q) :
  dropna_changes (pct_change k s)
  = dropna_changes (skipn k (pct_change k s)).
Proof.
  unfold dropna_changes.
  rewrite <- (firstn_skipn k (pct_change k s)) at 1.
  rewrite filter_app.
  replace (filter _ (firstn k (pct_change k s))) with (@nil (K * Change));
    [reflexivity|].
  symmetry. pose proof (pct_change_head_nan k s) as H.
  induction (firstn k (pct_change k s)) as [|kv l IH]; simpl; [reflexivity|].
  rewrite (H kv (or_introl eq_refl)). apply IH. intros kv' Hin. apply H. now right.
Qed.

Lemma growth_starts_late {K : Type} k (s : Series K Q) :
  (List.length (dropna_changes (pct_change k s)) <= List.length s - k)%nat
  /\ incl (map fst (dropna_changes (pct_change k s))) (map fst (skipn k s)).
Proof.
  rewrite dropna_changes_skips_head. split.
  - unfold dropna_changes. etransitivity; [apply filter_length_le|].
    rewrite length_skipn. rewrite <- (length_map fst (pct_change k s)).
    rewrite pct_change_labels, length_map. lia.
  - intros m Hm. rewrite <- skipn_map, <- (pct_change_labels k s), skipn_map.
    apply in_map_iff in Hm. destruct Hm as (kv & <- & Hkv).
    apply in_map. unfold dropna_changes in Hkv. now apply filter_In in Hkv.
Qed.

(** X16. The year-over-year series has no value for the first twelve
    months of the monthly table and the month-over-month series none for
    the first month: with twelve months or fewer the year-over-year chart is
    empty. *)
Theorem growth_series_start_late (df : DataFrame) :
  (List.length (yoy_growth df) <= List.length (monthly_sales df) - 12)%nat
  /\ incl (map fst (yoy_growth df)) (map fst (skipn 12 (monthly_sales df)))
  /\ (List.length (mom_growth df) <= List.length (monthly_sales df) - 1)%nat
  /\ incl (map fst (mom_growth df)) (map fst (skipn 1 (monthly_sales df))).
Proof.
  unfold yoy_growth, mom_growth.
  destruct (growth_starts_late 12 (monthly_sales df)) as [H1 H2].
  destruct (growth_starts_late 1 (monthly_sales df)) as [H3 H4].
  auto.
Qed.

Lemma period_leb_iff x y :
  period_leb x y = true <-> fst x < fst y \/ (fst x = fst y /\ snd x <= snd y).
Proof.
  unfold period_leb.
  rewrite orb_true_iff, andb_true_iff, Z.ltb_lt, Z.eqb_eq, Z.leb_le. reflexivity.
Qed.

Lemma group_keys_sorted {R K : Type}
    (K_dec : forall x y : K, {x = y} + {x <> y}) (K_leb : K -> K -> bool)
    (key : R -> option K) (df : list R) :
  (forall a b, K_leb a b = true \/ K_leb b a = true) ->
  (forall a b c, K_leb a b = true -> K_leb b c = true -> K_leb a c = true) ->
  StronglySorted (fun a b => K_leb a b = true) (group_keys K_dec K_leb key df).
Proof. intros Htot Htrans. unfold group_keys. now apply sort_sorted. Qed.

(** X17. The monthly sales table has one row per month that occurs in the
    frame, in chronological order. *)
Theorem monthly_sales_chronological (df : DataFrame) :
  StronglySorted
    (fun a b => fst a < fst b \/ (fst a = fst b /\ snd a < snd b))
    (map fst (monthly_sales df))
  /\ forall m, In m (map fst (monthly_sales df)) <-> In (Some m) (map Month df).
Proof.
  unfold monthly_sales. rewrite groupby_agg_keys. split.
  - assert (Hs : StronglySorted (fun a b => period_leb a b = true)
                   (group_keys period_dec period_leb Month df)).
    { apply group_keys_sorted.
      - intros a b. rewrite !period_leb_iff. lia.
      - intros a b c. rewrite !period_leb_iff. lia. }
    pose proof (group_keys_NoDup period_dec period_leb Month df) as Hnd.
    induction Hs as [|a l Hs IH Ha]; constructor.
    + apply IH. now inversion Hnd.
    + inversion Hnd as [|? ? Hn _]; subst.
      apply Forall_forall. intros b Hb.
      rewrite Forall_forall in Ha. specialize (Ha b Hb).
      apply period_leb_iff in Ha.
      assert (a <> b) by (intros ->; contradiction).
      destruct a as [ya ma], b as [yb mb]. simpl in *.
      destruct Ha as [Ha|[Hy Hm]]; [now left|]. right. split; [exact Hy|].
      assert (ma <> mb) by congruence. lia.
  - intros m. rewrite group_keys_In. split.
    + intros (r & Hr & Hm). apply in_map_iff. exists r. auto.
    + intros H. apply in_map_iff in H. destruct H as (r & Hm & Hr). exists r. auto.
Qed.

Lemma nth_error_combine {A B : Type} (a : list A) (b : list B) i :
  nth_error (combine a b) i
  = match nth_error a i, nth_error b i with
    | Some x, Some y => Some (x, y)
    | _, _ => None
    end.
Proof.
  revert b i. induction a as [|x a IH]; intros [|y b] [|i]; simpl; try reflexivity.
  - now destruct (nth_error a i).
  - apply IH.
Qed.

Lemma shift_nth {A : Type} k (v : list A) i prev :
  nth_error v i = Some prev -> (i + k < List.length v)%nat ->
  nth_error (shift k v) (i + k) = Some (Some prev).
Proof.
  intros Hi Hlt. unfold shift. rewrite nth_error_firstn.
  destruct (Nat.ltb_spec (i + k) (List.length v)) as [_|Hge]; [|lia].
  rewrite nth_error_app2 by (rewrite repeat_length; lia).
  rewrite repeat_length. replace (i + k - k)%nat with i by lia.
  now rewrite nth_error_map, Hi.
Qed.

Lemma pct_change_nth {K : Type} k (s : Series K Q) i m0 prev m cur :
  nth_error s i = Some (m0, prev) ->
  nth_error s (i + k) = Some (m, cur) ->
  nth_error (pct_change k s) (i + k) = Some (m, relative_change prev cur).
Proof.
  intros Hi Hk. unfold pct_change.
  assert (Hlt : (i + k < List.length (map snd s))%nat).
  { rewrite length_map. apply nth_error_Some. congruence. }
  rewrite nth_error_combine, !nth_error_map, nth_error_combine, Hk. simpl.
  rewrite (shift_nth k (map snd s) i prev); [| now rewrite nth_error_map, Hi | exact Hlt].
  now rewrite nth_error_map, Hk.
Qed.

Lemma growth_of_rows {K : Type} k (s : Series K Q) i m0 prev m cur :
  nth_error s i = Some (m0, prev) ->
  nth_error s (i + k) = Some (m, cur) ->
  ~ (prev == 0)%Q ->
  In (m, Finite (cur / prev - 1)%Q) (dropna_changes (pct_change k s)).
Proof.
  intros Hi Hk Hp. unfold dropna_changes. apply filter_In.
  assert (Hr : relative_change prev cur = Finite (cur / prev - 1)%Q).
  { unfold relative_change. destruct (Qeq_bool prev 0) eqn:E; [|reflexivity].
    apply Qeq_bool_iff in E. contradiction. }
  split; [|reflexivity].
  rewrite <- Hr. eapply nth_error_In. eapply pct_change_nth; eassumption.
Qed.

(** X18. A growth value compares a month with the row twelve places (year
    over year) or one place (month over month) earlier in the monthly table:
    when the earlier sales are not zero the series holds, for the later
    month, the later sales divided by the earlier sales, minus one. *)
Theorem growth_compares_table_rows (df : DataFrame) (k i : nat)
    (m0 m : Z * Z) (prev cur : Q) :
  nth_error (monthly_sales df) i = Some (m0, prev) ->
  nth_error (monthly_sales df) (i + k) = Some (m, cur) ->
  ~ (prev == 0)%Q ->
  (k = 12%nat -> In (m, Finite (cur / prev - 1)%Q) (yoy_growth df))
  /\ (k = 1%nat -> In (m, Finite (cur / prev - 1)%Q) (mom_growth df)).
Proof.
  intros Hi Hk Hp. unfold yoy_growth, mom_growth.
  split; intros ->; eapply growth_of_rows; eassumption.
Qed.

Lemma growth_compares_table_rows_witness :
  let df := load_data Reference.to_datetime Sample.csv_two_months in
  exists prev cur,
    nth_error (monthly_sales df) 0 = Some ((2010, 12), prev)
    /\ nth_error (monthly_sales df) (0 + 1) = Some ((2011, 1), cur)
    /\ ~ (prev == 0)%Q
    /\ In ((2011, 1), Finite (cur / prev - 1)%Q) (mom_growth df).
Proof.
  intros df. eexists. eexists.
  assert (H0 : nth_error (monthly_sales df) 0 = Some ((2010, 12), _))
    by (lazy; reflexivity).
  assert (H1 : nth_error (monthly_sales df) (0 + 1) = Some ((2011, 1), _))
    by (lazy; reflexivity).
  split; [exact H0|]. split; [exact H1|].
  assert (Hp : ~ (1530 # 100 == 0)%Q) by (intros H; discriminate H).
  split; [exact Hp|].
  exact (proj2 (growth_compares_table_rows df 1 0 _ _ _ _ H0 H1 Hp) eq_refl).
Defined.

(** ** Gaps between purchases *)

Lemma customer_date_leb_total r1 r2 :
  customer_date_leb r1 r2 = true \/ customer_date_leb r2 r1 = true.
Proof.
  unfold customer_date_leb, option_leb, date_leb.
  destruct (CustomerID r1), (CustomerID r2), (InvoiceDate r1), (InvoiceDate r2);
    rewrite ?orb_true_iff, ?andb_true_iff, ?Z.ltb_lt, ?Z.eqb_eq, ?Z.leb_le;
    try lia; auto.
Qed.

Lemma customer_date_leb_trans r1 r2 r3 :
  customer_date_leb r1 r2 = true -> customer_date_leb r2 r3 = true ->
  customer_date_leb r1 r3 = true.
Proof.
  unfold customer_date_leb, option_leb, date_leb.
  destruct (CustomerID r1), (CustomerID r2), (CustomerID r3),
    (InvoiceDate r1), (InvoiceDate r2), (InvoiceDate r3);
    rewrite ?orb_true_iff, ?andb_true_iff, ?Z.ltb_lt, ?Z.eqb_eq, ?Z.leb_le;
    try discriminate; try lia; auto; intuition lia.
Qed.

Lemma StronglySorted_filter {A : Type} (R : A -> A -> Prop) (f : A -> bool) l :
  StronglySorted R l -> StronglySorted R (filter f l).
Proof.
  induction 1 as [|a l Hs IH Ha]; simpl; [constructor|].
  destruct (f a); [|exact IH]. constructor; [exact IH|].
  apply Forall_forall. intros x Hx. apply filter_In in Hx.
  rewrite Forall_forall in Ha. now apply Ha.
Qed.

Lemma Permutation_filter_same {A : Type} (f : A -> bool) l l' :
  Permutation l l' -> Permutation (filter f l) (filter f l').
Proof.
  induction 1; simpl.
  - constructor.
  - destruct (f x); [now constructor | assumption].
  - destruct (f x), (f y); try reflexivity. apply perm_swap.
  - etransitivity; eassumption.
Qed.

Lemma days_gaps_cons a v :
  days_gaps (a :: v)
  = None :: map (fun pc => match fst pc with
                           | Some prev => days_gap prev (snd pc)
                           | None => None
                           end)
                (combine (map Some (a :: v)) v).
Proof.
  unfold days_gaps, shift.
  transitivity
    (map (fun pc => match fst pc with
                    | Some prev => days_gap prev (snd pc)
                    | None => None
                    end)
         ((None, a) :: combine (firstn (List.length v) (map Some (a :: v))) v));
    [reflexivity|].
  now rewrite <- combine_firstn_r.
Qed.

Lemma sorted_dates_gaps_nonneg dates :
  StronglySorted (fun x y => option_leb date_leb x y = true) dates ->
  Forall (fun g => match g with Some d => 0 <= d | None => True end)
         (days_gaps dates).
Proof.
  destruct dates as [|a v]; [constructor|].
  rewrite days_gaps_cons. intros Hs. constructor; [exact I|].
  revert a Hs. induction v as [|b v IH]; intros a Hs; simpl; [constructor|].
  inversion Hs as [|? ? Hs' Ha]; subst. constructor.
  - inversion Ha as [|? ? Hab _]; subst.
    destruct a as [p|], b as [c|]; simpl; try exact I.
    unfold date_leb in Hab. simpl in Hab. apply Z.leb_le in Hab.
    unfold timedelta_days. apply Z.div_pos; lia.
  - now apply IH.
Qed.

Lemma mean_Z_nonneg col a :
  Forall (fun g => match g with Some d => 0 <= d | None => True end) col ->
  mean_Z col = Some a -> (0 <= a)%Q.
Proof.
  intros Hcol.
  assert (Hs : 0 <= sum_Z col).
  { unfold sum_Z. induction Hcol as [|[d|] col Hd _ IH]; simpl in *; lia. }
  unfold mean_Z.
  destruct (count col) as [|n]; [discriminate|]. intros H. inversion H.
  apply Qle_shift_div_l.
  - change 0%Q with (inject_Z 0). rewrite <- Zlt_Qlt. lia.
  - rewrite Qmult_0_l. change 0%Q with (inject_Z 0). now rewrite <- Zle_Qle.
Qed.

Lemma mean_of_gaps_needs_two_rows dates a :
  mean_Z (days_gaps dates) = Some a -> (2 <= List.length dates)%nat.
Proof.
  destruct dates as [|d [|d' v]]; simpl; try lia; discriminate.
Qed.

Lemma group_dates_sorted c g :
  Forall (fun r => CustomerID r = Some c) g ->
  StronglySorted (fun x y => customer_date_leb x y = true) g ->
  StronglySorted (fun x y => option_leb date_leb x y = true) (map InvoiceDate g).
Proof.
  intros Hc Hs. induction Hs as [|r l Hs IH Hr]; simpl; constructor.
  - apply IH. now inversion Hc.
  - inversion Hc as [|? ? Hc1 Hcl]; subst.
    apply Forall_forall. intros d Hd.
    apply in_map_iff in Hd. destruct Hd as (r' & <- & Hr').
    rewrite Forall_forall in Hr, Hcl.
    specialize (Hr r' Hr'). specialize (Hcl r' Hr').
    unfold customer_date_leb in Hr. rewrite Hc1, Hcl in Hr.
    rewrite Z.ltb_irrefl, Z.eqb_refl in Hr. exact Hr.
Qed.

(** X19. Every average gap of the retention view is zero or more days, and
    only a customer with at least two records has one. *)
Theorem avg_gap_nonnegative (df : DataFrame) (c : Z) (a : Q) :
  In (c, a) (avg_gap df) ->
  (0 <= a)%Q /\ (2 <= List.length (rows_of_customer c df))%nat.
Proof.
  unfold avg_gap. rewrite in_flat_map. intros ((c' & m) & Hin & Hm).
  destruct m as [a'|]; simpl in Hm; [|contradiction].
  destruct Hm as [Hm|[]]. inversion Hm; subst c' a'. clear Hm.
  unfold groupby_agg in Hin. apply in_map_iff in Hin.
  destruct Hin as (k & Hk & _). inversion Hk as [[Hc Hmean]]. subst k.
  set (g := get_group Z.eq_dec CustomerID c (df_sorted df)) in *.
  assert (Hsorted : StronglySorted (fun x y => customer_date_leb x y = true) g).
  { unfold g, get_group, df_sorted. apply StronglySorted_filter, sort_sorted.
    - apply customer_date_leb_total.
    - apply customer_date_leb_trans. }
  assert (Hcust : Forall (fun r => CustomerID r = Some c) g).
  { apply Forall_forall. intros r Hr. now apply get_group_In in Hr. }
  split.
  - apply (mean_Z_nonneg (days_gaps (map InvoiceDate g)) a); [|exact Hmean].
    apply sorted_dates_gaps_nonneg. now apply (group_dates_sorted c).
  - apply mean_of_gaps_needs_two_rows in Hmean. rewrite length_map in Hmean.
    rewrite <- rows_of_customer_group. unfold get_group.
    rewrite <- (Permutation_length
                  (Permutation_filter_same _ _ _ (sort_perm customer_date_leb df))).
    exact Hmean.
Qed.

Lemma avg_gap_nonnegative_witness :
  let df := load_data Reference.to_datetime Sample.csv in
  In (12583, 1 # 2) (avg_gap df)
  /\ (0 <= 1 # 2)%Q /\ (2 <= List.length (rows_of_customer 12583 df))%nat.
Proof.
  intros df.
  assert (H : In (12583, 1 # 2) (avg_gap df)) by (vm_compute; left; reflexivity).
  split; [exact H | exact (avg_gap_nonnegative df 12583 (1 # 2) H)].
Defined.

(** ** Outliers above the 99th percentile *)

Lemma sorted_nth_mono (v : list Q) (x0 : Q) :
  StronglySorted (fun a b => Qle_bool a b = true) v ->
  forall i j, (i <= j)%nat -> (j < List.length v)%nat ->
  (nth i v x0 <= nth j v x0)%Q.
Proof.
  induction 1 as [|a l Hs IH Ha]; intros i j Hij Hj; simpl in Hj; [lia|].
  destruct i as [|i], j as [|j]; simpl; try lia.
  - apply Qle_refl.
  - apply Qle_bool_iff. rewrite Forall_forall in Ha. apply Ha, nth_In. lia.
  - apply IH; lia.
Qed.

Lemma count_above_sorted (v : list Q) (x0 : Q) :
  StronglySorted (fun a b => Qle_bool a b = true) v ->
  forall lo x, (lo < List.length v)%nat -> (nth lo v x0 <= x)%Q ->
  (List.length (filter (fun y => negb (Qle_bool y x)) v)
   <= List.length v - lo - 1)%nat.
Proof.
  induction 1 as [|a l Hs IH Ha]; intros lo x Hlo Hx; simpl in Hlo; [lia|].
  assert (Hax : Qle_bool a x = true).
  { apply Qle_bool_iff. destruct lo as [|k]; simpl in Hx; [exact Hx|].
    eapply Qle_trans; [|exact Hx]. apply Qle_bool_iff.
    rewrite Forall_forall in Ha. apply Ha, nth_In. lia. }
  simpl. rewrite Hax. simpl.
  destruct lo as [|k].
  - pose proof (filter_length_le (fun y => negb (Qle_bool y x)) l). lia.
  - simpl in Hx. specialize (IH k x ltac:(lia) Hx). lia.
Qed.

Lemma Qfloor_99_percent (m : Z) : Qfloor (0.99 * inject_Z m) = (99 * m) / 100.
Proof. unfold Qfloor, Qmult, inject_Z. simpl. reflexivity. Qed.

(** The 99th percentile is not below the order statistic at the floor of
    its position. *)
Lemma quantile_99_lower_bound col x :
  quantile 0.99 col = Some x ->
  (Z.to_nat ((99 * Z.of_nat (List.length (sort Qle_bool (dropna col)) - 1)) / 100)
   < List.length (sort Qle_bool (dropna col)))%nat
  /\ (nth (Z.to_nat ((99 * Z.of_nat (List.length (sort Qle_bool (dropna col)) - 1)) / 100))
          (sort Qle_bool (dropna col)) 0 <= x)%Q.
Proof.
  unfold quantile.
  assert (Hs : StronglySorted (fun a b => Qle_bool a b = true)
                 (sort Qle_bool (dropna col))).
  { apply sort_sorted; [apply Qle_bool_total | apply Qle_bool_trans]. }
  remember (sort Qle_bool (dropna col)) as v eqn:Ev. clear Ev.
  intros H.
  assert (Hn : (0 < List.length v)%nat).
  { destruct v; [discriminate H | simpl; lia]. }
  set (m := Z.of_nat (List.length v - 1)) in *.
  set (lo := Z.to_nat (99 * m / 100)).
  assert (Hm : 0 <= m) by (unfold m; lia).
  assert (Hdiv : 0 <= 99 * m / 100 <= m).
  { split; [apply Z.div_pos; lia|]. apply Z.div_le_upper_bound; lia. }
  assert (Hlo : (lo < List.length v)%nat) by (unfold lo, m in *; lia).
  split; [exact Hlo|].
  assert (Hx : exists x0, x = (nth lo v x0
                 + (nth (Nat.min (lo + 1) (List.length v - 1)) v x0 - nth lo v x0)
                   * (0.99 * inject_Z m - inject_Z (99 * m / 100)))%Q).
  { destruct v as [|x0 l]; [discriminate H|]. exists x0.
    rewrite Qfloor_99_percent in H. inversion H. reflexivity. }
  destruct Hx as (x0 & ->).
  set (hi := Nat.min (lo + 1) (List.length v - 1)).
  assert (Hab : (nth lo v x0 <= nth hi v x0)%Q).
  { apply sorted_nth_mono; [exact Hs | unfold hi; lia | unfold hi; lia]. }
  assert (Hfrac : (0 <= 0.99 * inject_Z m - inject_Z (99 * m / 100))%Q).
  { rewrite <- Qfloor_99_percent. unfold Qminus.
    apply (proj1 (Qle_minus_iff _ _)). apply Qfloor_le. }
  rewrite (nth_indep v 0%Q x0 Hlo).
  rewrite <- (Qplus_0_r (nth lo v x0)) at 1.
  apply Qplus_le_r. apply Qmult_le_0_compat; [|exact Hfrac].
  unfold Qminus. apply (proj1 (Qle_minus_iff _ _)). exact Hab.
Qed.

Lemma flagged_count_values {R : Type} (val : R -> option Q) (df : list R) x :
  List.length (filter (fun r => Q_gt (val r) (Some x)) df)
  = List.length (filter (fun y => negb (Qle_bool y x)) (dropna (map val df))).
Proof.
  induction df as [|r df IH]; simpl; [reflexivity|].
  destruct (val r) as [a|]; simpl; [|exact IH].
  destruct (Qle_bool a x); simpl; now rewrite IH.
Qed.

Lemma dropna_length_le {A : Type} (col : list (option A)) :
  (List.length (dropna col) <= List.length col)%nat.
Proof. induction col as [|[a|] col IH]; simpl; lia. Qed.

Lemma filter_orb_length {A : Type} (f g : A -> bool) l :
  (List.length (filter (fun x => f x || g x) l)
   <= List.length (filter f l) + List.length (filter g l))%nat.
Proof.
  induction l as [|a l IH]; simpl; [lia|].
  destruct (f a), (g a); simpl; lia.
Qed.

(** At most about one value in a hundred lies above the 99th percentile. *)
Lemma flagged_bound {R : Type} (val : R -> option Q) (df : list R) :
  (100 * List.length (filter (fun r => Q_gt (val r) (quantile 0.99 (map val df))) df)
   <= List.length df + 98)%nat.
Proof.
  destruct (quantile 0.99 (map val df)) as [x|] eqn:E.
  - rewrite flagged_count_values.
    destruct (quantile_99_lower_bound _ _ E) as [Hlo Hx].
    set (v := sort Qle_bool (dropna (map val df))) in *.
    rewrite (Permutation_length
               (Permutation_filter_same (fun y => negb (Qle_bool y x)) _ _
                  (Permutation_sym (sort_perm Qle_bool (dropna (map val df)))))).
    fold v.
    assert (Hs : StronglySorted (fun a b => Qle_bool a b = true) v).
    { apply sort_sorted; [apply Qle_bool_total | apply Qle_bool_trans]. }
    pose proof (count_above_sorted v 0%Q Hs _ x Hlo Hx) as Hc.
    assert (Hn : (List.length v <= List.length df)%nat).
    { unfold v. rewrite sort_length.
      etransitivity; [apply dropna_length_le | now rewrite length_map]. }
    set (m := Z.of_nat (List.length v - 1)) in *.
    pose proof (Z.mul_succ_div_gt (99 * m) 100 ltac:(lia)) as Hd.
    assert (Hm : 0 <= m) by (unfold m; lia).
    assert (Hd0 : 0 <= 99 * m / 100) by (apply Z.div_pos; lia).
    unfold m in *. lia.
  - replace (filter _ df) with (@nil R); [simpl; lia|].
    symmetry. clear E. induction df as [|r df IH]; simpl; [reflexivity|].
    destruct (val r); simpl; exact IH.
Qed.

(** X20. The outlier table is a small part of the frame: it holds at most
    about two records in a hundred (one in a hundred for each of the two
    tests), and none when the frame has a single record or is empty. *)
Theorem bulk_orders_are_few (df : DataFrame) :
  (100 * List.length (bulk_orders df) <= 2 * List.length df + 196)%nat
  /\ incl (bulk_orders df) df
  /\ ((List.length df <= 1)%nat -> bulk_orders df = []).
Proof.
  pose proof (flagged_bound quantity_value df) as Hq.
  pose proof (flagged_bound Revenue df) as Hr.
  pose proof (filter_orb_length
                (fun r => Q_gt (quantity_value r) (quantile 0.99 (map quantity_value df)))
                (fun r => Q_gt (Revenue r) (quantile 0.99 (map Revenue df))) df) as Ho.
  unfold bulk_orders. cbv zeta.
  set (nq := List.length (filter _ df)) in Hq.
  set (nr := List.length (filter _ df)) in Hr.
  fold nq nr in Ho.
  split; [lia|]. split.
  - intros r Hr'. now apply filter_In in Hr'.
  - intros H1. apply length_zero_iff_nil.
    assert (Hq0 : nq = 0%nat) by lia.
    assert (Hr0 : nr = 0%nat) by lia.
    rewrite Hq0, Hr0 in Ho. now apply Nat.le_0_r in Ho.
Qed.

Lemma bulk_orders_are_few_witness :
  let df := load_data Reference.to_datetime Sample.csv_one_product in
  (List.length df <= 1)%nat /\ bulk_orders df = [].
Proof.
  intros df.
  assert (H : (List.length df <= 1)%nat) by (vm_compute; repeat constructor).
  split; [exact H | exact (proj2 (proj2 (bulk_orders_are_few df)) H)].
Defined.

(** ** Column assignment *)

Lemma getitem_setitem_same n c df : getitem n (setitem n c df) = Ok c.
Proof.
  induction df as [|[k c0] df IH]; simpl.
  - now rewrite String.eqb_refl.
  - destruct (String.eqb n k) eqn:E; simpl; rewrite E; [reflexivity | exact IH].
Qed.

Lemma getitem_setitem_other n m c df :
  n <> m -> getitem m (setitem n c df) = getitem m df.
Proof.
  intros Hne. induction df as [|[k c0] df IH]; simpl.
  - destruct (String.eqb m n) eqn:E; [|reflexivity].
    apply String.eqb_eq in E. congruence.
  - destruct (String.eqb n k) eqn:E; simpl.
    + destruct (String.eqb m k) eqn:E'; [|reflexivity].
      apply String.eqb_eq in E, E'. congruence.
    + now rewrite IH.
Qed.

Lemma setitem_same n c df : getitem n df = Ok c -> setitem n c df = df.
Proof.
  induction df as [|[k c0] df IH]; simpl; [discriminate|].
  destruct (String.eqb n k) eqn:E.
  - intros H. inversion H. reflexivity.
  - intros H. f_equal. now apply IH.
Qed.

(** X21. Running a report handler a second time on the frame it left
    changes nothing: the derived columns are assigned under fixed names
    from the loader's columns, so they are replaced by equal columns. *)
Theorem handler_effect_idempotent (choice : Choice) (df df' : Frame) :
  handler_effect choice df = Ok df' ->
  handler_effect choice df' = Ok df'.
Proof.
  destruct choice; simpl; try (intros H; inversion H; reflexivity).
  - destruct (getitem "InvoiceDate" df) as [d|] eqn:Hd; simpl; [|discriminate].
    destruct (dt d) as [ts|] eqn:Hts; simpl; [|discriminate].
    rewrite getitem_setitem_other, Hd by discriminate. simpl. rewrite Hts. simpl.
    rewrite !getitem_setitem_other by discriminate.
    destruct (getitem "Description" df) as [ds|] eqn:Hds; simpl; [|discriminate].
    intros H. inversion H as [Hdf]. clear H.
    set (v1 := StrCol (map (option_map day_name) ts)).
    set (v2 := IntCol (map (option_map hour) ts)).
    set (v3 := apply_get_category ds).
    rewrite !getitem_setitem_other, Hd by discriminate. simpl. rewrite Hts. simpl.
    fold v1.
    assert (E1 : setitem "DayOfWeek" v1
                   (setitem "Category" v3 (setitem "Hour" v2 (setitem "DayOfWeek" v1 df)))
                 = setitem "Category" v3 (setitem "Hour" v2 (setitem "DayOfWeek" v1 df))).
    { apply setitem_same. rewrite !getitem_setitem_other by discriminate.
      apply getitem_setitem_same. }
    rewrite E1. rewrite !getitem_setitem_other, Hd by discriminate. simpl.
    rewrite Hts. simpl. fold v2.
    assert (E2 : setitem "Hour" v2
                   (setitem "Category" v3 (setitem "Hour" v2 (setitem "DayOfWeek" v1 df)))
                 = setitem "Category" v3 (setitem "Hour" v2 (setitem "DayOfWeek" v1 df))).
    { apply setitem_same. rewrite !getitem_setitem_other by discriminate.
      apply getitem_setitem_same. }
    rewrite E2. rewrite !getitem_setitem_other, Hds by discriminate. simpl.
    fold v3. f_equal. apply setitem_same, getitem_setitem_same.
  - destruct (getitem "InvoiceDate" df) as [d|] eqn:Hd; simpl; [|discriminate].
    destruct (dt d) as [ts|] eqn:Hts; simpl; [|discriminate].
    intros H. inversion H as [Hdf]. clear H.
    rewrite getitem_setitem_other, Hd by discriminate. simpl. rewrite Hts. simpl.
    f_equal. apply setitem_same, getitem_setitem_same.
Qed.

Lemma handler_effect_idempotent_witness :
  let df := to_frame (load_data Reference.to_datetime Sample.csv_one_product) in
  exists df',
    handler_effect SalesPerformance df = Ok df'
    /\ handler_effect SalesPerformance df' = Ok df'.
Proof.
  intros df. eexists.
  assert (H : handler_effect SalesPerformance df = Ok _) by (lazy; reflexivity).
  split; [exact H | exact (handler_effect_idempotent SalesPerformance df _ H)].
Defined.

(** ** Sales by day and by hour *)

Lemma day_name_weekday t : In (day_name t) weekdays.
Proof.
  unfold day_name. fold weekdays. apply nth_In.
  pose proof (Z.mod_pos_bound
                (days_from_civil (year t) (month t) (day t) + 4) 7 ltac:(lia)).
  unfold weekdays. simpl List.length. lia.
Qed.

Lemma notna_option_map {A B : Type} (f : A -> B) (x : option A) :
  notna (option_map f x) = notna x.
Proof. now destruct x. Qed.

(** X22. The "Sales by Day" table has at most seven rows, each labelled
    with a weekday name.  Its day groups and the hour groups of the "Sales
    by Hour" table partition the same records, those that have a date:
    every such record belongs to the group of exactly one day and of
    exactly one hour, and each row of either table holds the sum of the
    revenues of its group. *)
Theorem sales_by_day_and_hour (df : DataFrame) :
  (List.length (sales_by_day df) <= 7)%nat
  /\ incl (map fst (sales_by_day df)) weekdays
  /\ (forall d v, In (d, v) (sales_by_day df) ->
        v = sum_Q (map Revenue (get_group string_dec DayOfWeek d df)))
  /\ (forall h v, In (h, v) (sales_by_hour df) ->
        v = sum_Q (map Revenue (get_group Z.eq_dec Hour h df)))
  /\ Permutation
       (List.concat (map (fun kv => get_group string_dec DayOfWeek (fst kv) df)
                         (sales_by_day df)))
       (filter (fun r => notna (InvoiceDate r)) df)
  /\ Permutation
       (List.concat (map (fun kv => get_group Z.eq_dec Hour (fst kv) df)
                         (sales_by_hour df)))
       (filter (fun r => notna (InvoiceDate r)) df).
Proof.
  destruct (groupby_agg_partition string_dec String.leb DayOfWeek
              (fun g => sum_Q (map Revenue g)) (sales_by_day df) df
              (Permutation_refl _))
    as (Hnd & Hval & Hparts).
  destruct (groupby_agg_partition Z.eq_dec Z.leb Hour
              (fun g => sum_Q (map Revenue g)) (sales_by_hour df) df
              (Permutation_refl _))
    as (_ & Hval' & Hparts').
  assert (Hincl : incl (map fst (sales_by_day df)) weekdays).
  { unfold sales_by_day. rewrite groupby_agg_keys. intros d Hd.
    apply group_keys_In in Hd. destruct Hd as (r & _ & Hd).
    unfold DayOfWeek in Hd. destruct (InvoiceDate r) as [t|]; [|discriminate].
    simpl in Hd. inversion Hd. apply day_name_weekday. }
  split; [|split; [exact Hincl | split; [exact Hval | split; [exact Hval'|split]]]].
  - rewrite <- (length_map fst).
    change 7%nat with (List.length weekdays).
    now apply NoDup_incl_length.
  - rewrite Hparts. erewrite filter_ext; [reflexivity|].
    intros r. apply notna_option_map.
  - rewrite Hparts'. erewrite filter_ext; [reflexivity|].
    intros r. apply notna_option_map.
Qed.

(** ** Average transaction size *)

(** X23. The two country charts show the same countries, each once.  A
    country's average transaction size is missing exactly when none of its
    records has a revenue, and a country shown has at least one record. *)
Theorem avg_transaction_size_countries (df : DataFrame) :
  Permutation (map fst (avg_transaction_size df)) (map fst (country_sales df))
  /\ NoDup (map fst (avg_transaction_size df))
  /\ forall c a, In (c, a) (avg_transaction_size df) ->
       get_group string_dec Country c df <> []
       /\ (a = None <->
           Forall (fun r => Revenue r = None) (get_group string_dec Country c df)).
Proof.
  split; [|split].
  - unfold avg_transaction_size, country_sales, sort_values_desc.
    rewrite groupby_agg_keys.
    rewrite <- (groupby_agg_keys string_dec String.leb Country
                  (fun g => sum_Q (map Revenue g)) df).
    symmetry. apply Permutation_map, sort_perm.
  - unfold avg_transaction_size. rewrite groupby_agg_keys.
    apply group_keys_NoDup.
  - intros c a Hin. unfold avg_transaction_size in Hin.
    apply In_groupby_agg in Hin. destruct Hin as [Ha Hk]. split.
    + apply group_keys_In in Hk. destruct Hk as (r & Hr & Hc).
      intros Hnil.
      assert (Hg : In r (get_group string_dec Country c df))
        by (apply get_group_In; auto).
      rewrite Hnil in Hg. contradiction.
    + subst a. unfold mean_Q, count.
      rewrite <- dropna_map_nil_iff.
      destruct (dropna (map Revenue (get_group string_dec Country c df)));
        simpl; split; intros H; try reflexivity; discriminate.
Qed.

(** ** Fraud view and revenue *)

Lemma Qle_bool_scale (q : Z) (p : Q) :
  0 < q -> Qle_bool (inject_Z q * p) 0 = Qle_bool p 0.
Proof.
  intros Hq. unfold Qle_bool, Qmult, inject_Z. simpl.
  rewrite !Z.mul_1_r.
  destruct (Z.leb_spec (Qnum p) 0) as [H|H].
  - apply Z.leb_le. nia.
  - apply Z.leb_gt. nia.
Qed.

(** X24. On the frame the loader returns the quantity is positive, so a
    record's revenue is zero or negative exactly when its unit price is:
    the fraud view shows exactly the records whose revenue is not positive. *)
Theorem fraud_is_nonpositive_revenue to_datetime csv :
  let df := load_data to_datetime csv in
  fraud df = filter (fun r => Q_le0 (Revenue r)) df.
Proof.
  intros df. unfold fraud. apply filter_ext_in. intros r Hr.
  apply load_data_In in Hr. destruct Hr as (r0 & <- & _ & _ & _ & Hq). simpl.
  destruct (Raw.Quantity r0) as [q|]; [|discriminate Hq].
  simpl in Hq. apply Z.ltb_lt in Hq.
  assert (Hle : (q <=? 0) = false) by (apply Z.leb_gt; lia).
  unfold Z_le0, Q_le0, mul_cells. rewrite Hle. simpl.
  destruct (Raw.UnitPrice r0) as [p|]; [|reflexivity].
  symmetry. now apply Qle_bool_scale.
Qed.

(** ** The ten rules shown *)

Lemma Ok_inj {A : Type} (a b : A) : Ok a = Ok b -> a = b.
Proof. intros H. now injection H. Qed.

(** X25. When the mining calls succeed, the table of rules shown has at
    most ten rules, all of them rules the library derived, and no derived
    rule left out has a larger lift than a rule shown. *)
Theorem top_rules_are_top
    (apriori fpgrowth : Basket -> Q -> bool -> Result (list FrequentItemset))
    (association_rules : list FrequentItemset -> Metric -> Q -> Result (list Rule))
    (df : DataFrame) (rs shown : list Rule) :
  rules apriori fpgrowth association_rules df = Ok rs ->
  top_rules apriori fpgrowth association_rules df = Ok shown ->
  (List.length shown <= 10)%nat
  /\ incl shown rs
  /\ forall r r', In r shown -> In r' rs -> ~ In r' shown ->
       (lift r' <= lift r)%Q.
Proof.
  intros Hrs Htop.
  set (leb := fun a b : Rule => Qle_bool (lift b) (lift a)).
  assert (Hshown : shown = firstn 10 (sort leb rs)).
  { unfold top_rules in Htop. rewrite Hrs in Htop. symmetry.
    apply Ok_inj. exact Htop. }
  subst shown.
  split; [apply firstn_le_length|]. split.
  - intros r Hr. apply In_firstn in Hr. now apply sort_In in Hr.
  - intros r r' Hr Hr' Hout. apply Qle_bool_iff.
    apply (sorted_head_before_rest leb 10 (sort leb rs) r r').
    + apply sort_sorted; unfold leb.
      * intros a b. apply Qle_bool_total.
      * intros a b c H1 H2. eapply Qle_bool_trans; eassumption.
    + exact Hr.
    + assert (H : In r' (sort leb rs)) by now apply sort_In.
      rewrite <- (firstn_skipn 10 (sort leb rs)) in H.
      apply in_app_or in H. destruct H; [contradiction | assumption].
Qed.

Lemma top_rules_are_top_witness :
  let df := load_data Reference.to_datetime Sample.csv in
  exists rs shown,
    rules Reference.mine Reference.mine Reference.derive_rules df = Ok rs
    /\ top_rules Reference.mine Reference.mine Reference.derive_rules df = Ok shown
    /\ (List.length shown <= 10)%nat
    /\ incl shown rs
    /\ forall r r', In r shown -> In r' rs -> ~ In r' shown ->
         (lift r' <= lift r)%Q.
Proof.
  intros df. eexists. eexists.
  assert (H1 : rules Reference.mine Reference.mine Reference.derive_rules df = Ok _)
    by (lazy; reflexivity).
  assert (H2 : top_rules Reference.mine Reference.mine Reference.derive_rules df
               = Ok _) by (lazy; reflexivity).
  split; [exact H1|]. split; [exact H2|].
  exact (top_rules_are_top Reference.mine Reference.mine Reference.derive_rules
           df _ _ H1 H2).
Defined.
